(** * journal_transporter: the hierarchical progress reporter

    A shallow embedding of
    [journal_transporter/progress/abstract_progress_reporter.py]
    (class [AbstractProgressReporter]) and the properties its
    specification states about it.

    Conventions of the embedding.
    - A Python number is a [num]: an [int] is a [Z], a [float] is the
      rational it denotes, and true division [/] is the exact quotient
      (rounding, infinities and NaN are outside the model).  A numeric
      argument that may be [None] is a [pynum].
    - The reporter object [self] is the record [Self.t]; every method is a
      computation in the monad [M], which threads [self], collects the
      calls made on the overridable UI surface and on the log file as a
      list of [event]s, and propagates Python exceptions.
    - The abstract methods ([_update_interface], [_new_progress_bar],
      [_close_progress_bar], [_print_message], [_get_error_response]) are
      events; the value the clock returns during a call and the string
      the user types at a prompt are inputs of the call. *)

From Stdlib Require Import ZArith QArith Bool List String Ascii Lia DecimalString.
Import ListNotations.
Close Scope Q_scope.
Open Scope string_scope.

(** ** Python values *)

Inductive num : Type :=
| NInt (z : Z)
| NFloat (q : Q).

(** A number or [None]. *)
Definition pynum : Type := option num.

Definition num_Q (n : num) : Q :=
  match n with
  | NInt z => inject_Z z
  | NFloat q => q
  end.

(** [bool(n)]: zero is falsy. *)
Definition num_truthy (n : num) : bool :=
  match n with
  | NInt z => negb (z =? 0)%Z
  | NFloat q => negb (Qeq_bool q 0)
  end.

(** [bool(x)] for a number or [None]. *)
Definition truthy (x : pynum) : bool :=
  match x with
  | None => false
  | Some n => num_truthy n
  end.

(** [bool(s)] for a string or [None]: the empty string is falsy. *)
Definition str_truthy (s : option string) : bool :=
  match s with
  | None => false
  | Some t => negb (String.eqb t "")
  end.

(** [a or b] on optional strings. *)
Definition py_or (a b : option string) : option string :=
  if str_truthy a then a else b.

(** [x in l] for a list of string literals. *)
Definition str_in (x : string) (l : list string) : bool :=
  existsb (String.eqb x) l.

Inductive exn : Type :=
| TypeError
| ZeroDivisionError
| IndexError.

Inductive outcome (A : Type) : Type :=
| Returns (a : A)
| Raises (e : exn).
Arguments Returns {A} a.
Arguments Raises {A} e.

(** [a / b]: [None] is not a number, a zero divisor raises.  The quotient
    is exact: the rounding to a double, and the [OverflowError] of an [int]
    too large for a float, are outside the model. *)
Definition truediv (a b : pynum) : outcome pynum :=
  match a, b with
  | Some x, Some y =>
      if num_truthy y then Returns (Some (NFloat (num_Q x / num_Q y)%Q))
      else Raises ZeroDivisionError
  | _, _ => Raises TypeError
  end.

(** ** The clock: [datetime.now().strftime("%Y-%m-%dT%H:%M:%S")]

    The year is written with four digits, as it is for every year the
    clock can show. *)

Record datetime : Type := mkDatetime {
  year : N; month : N; day : N; hour : N; minute : N; second : N
}.

Definition decimal (n : N) : string := NilEmpty.string_of_uint (N.to_uint n).

Fixpoint zeros (k : nat) : string :=
  match k with
  | O => ""
  | S k' => "0" ++ zeros k'
  end.

(** Zero-padded decimal of width at least [w]. *)
Definition zfill (w : nat) (n : N) : string :=
  let s := decimal n in zeros (w - String.length s) ++ s.

Definition strftime (d : datetime) : string :=
  zfill 4 (year d) ++ "-" ++ zfill 2 (month d) ++ "-" ++ zfill 2 (day d) ++ "T"
  ++ zfill 2 (hour d) ++ ":" ++ zfill 2 (minute d) ++ ":" ++ zfill 2 (second d).

(** ** Errors handed to [report_error] *)

(** [error.response] of a [ServerResponseError]. *)
Record Response : Type := mkResponse {
  status_code : Z; reason : string; text : string
}.

(** An exception object: a [ServerResponseError] with its response, or any
    other exception with its positional [args], each given by what [str()]
    yields for it. *)
Inductive exception : Type :=
| ServerResponseError (response : Response)
| Exception (args : list string).

(** A context dict, as its items. *)
Definition context : Type := list (string * string).

(** ** The reporter object *)

Inductive ProgressUpdateType : Type := MAJOR | MINOR | DETAIL | DEBUG.

Module Self.

(** The attributes [__init__] assigns, and [subtask_length], which exists
    only once an update has assigned it: [None] here is [hasattr] false,
    [Some None] is the Python value [None]. *)
Record t : Type := mk {
  debug_mode : bool;
  log_debug : bool;
  log_error : bool;
  log_file : option string;
  needs_log_file : bool;
  on_error : string;
  verbose_mode : bool;
  progress : pynum;
  message : option string;
  progress_length : pynum;
  subtask_length : option pynum
}.

Definition with_progress (v : pynum) (s : t) : t :=
  mk (debug_mode s) (log_debug s) (log_error s) (log_file s) (needs_log_file s)
     (on_error s) (verbose_mode s) v (message s) (progress_length s)
     (subtask_length s).

Definition with_message (v : option string) (s : t) : t :=
  mk (debug_mode s) (log_debug s) (log_error s) (log_file s) (needs_log_file s)
     (on_error s) (verbose_mode s) (progress s) v (progress_length s)
     (subtask_length s).

Definition with_progress_length (v : pynum) (s : t) : t :=
  mk (debug_mode s) (log_debug s) (log_error s) (log_file s) (needs_log_file s)
     (on_error s) (verbose_mode s) (progress s) (message s) v
     (subtask_length s).

Definition with_subtask_length (v : pynum) (s : t) : t :=
  mk (debug_mode s) (log_debug s) (log_error s) (log_file s) (needs_log_file s)
     (on_error s) (verbose_mode s) (progress s) (message s) (progress_length s)
     (Some v).

(** [hasattr(self, "subtask_length") and self.subtask_length] as a test. *)
Definition subtask_active (s : t) : bool :=
  match subtask_length s with
  | None => false
  | Some l => truthy l
  end.

(** [self.subtask_length] where the attribute exists. *)
Definition get_subtask_length (s : t) : pynum :=
  match subtask_length s with
  | None => None
  | Some l => l
  end.

End Self.

(** ** Effects *)

(** Calls that leave the reporter: the abstract UI hooks, the two public
    setters a UI overrides, the append to the log file, and the [pprint] of
    the context on standard output. *)
Inductive event : Type :=
| EvNewProgressBar (length : pynum) (before_message : option string)
                   (bar_init_message : pynum) (start : pynum)
| EvCloseProgressBar
| EvUpdateInterface (self : Self.t)
| EvPrintMessage (message : option string) (error fatal_error : bool)
| EvGetErrorResponse (error : exception) (ctx : context)
| EvSetProgress (progress : pynum)
| EvSetMessage (message : option string)
| EvLogAppend (path : string) (line : string)
| EvPPrint (ctx : context).

Definition M (A : Type) : Type := Self.t -> outcome A * Self.t * list event.

Definition ret {A} (a : A) : M A := fun s => (Returns a, s, []).

Definition bind {A B} (m : M A) (k : A -> M B) : M B :=
  fun s =>
    match m s with
    | (Returns a, s1, t1) =>
        match k a s1 with
        | (o, s2, t2) => (o, s2, (t1 ++ t2)%list)
        end
    | (Raises e, s1, t1) => (Raises e, s1, t1)
    end.

Definition get : M Self.t := fun s => (Returns s, s, []).
Definition modify (f : Self.t -> Self.t) : M unit := fun s => (Returns tt, f s, []).
Definition emit (e : event) : M unit := fun s => (Returns tt, s, [e]).
Definition lift {A} (o : outcome A) : M A := fun s => (o, s, []).

Declare Scope py_scope.
Delimit Scope py_scope with py.
Notation "x <- m ;; k" := (bind m (fun x => k))
  (at level 61, m at next level, right associativity) : py_scope.
Notation "m ;; k" := (bind m (fun _ => k))
  (at level 61, right associativity) : py_scope.
Notation "'when' b 'then' m" := (if b then m else ret tt)
  (at level 60, b at level 9, m at level 60) : py_scope.
Open Scope py_scope.

(** ** Methods of [AbstractProgressReporter] *)

(** [__init__]; [setup()] does nothing in this class.  No token is checked:
    [log] is only compared with the four log tokens and [on_error] is stored
    as given. *)
Definition __init__ (init_message : option string) (start : pynum)
    (verbose debug : bool) (log on_error : string) : outcome Self.t :=
  let log_debug := str_in log ["d"; "debug"] in
  let log_error := str_in log ["e"; "error"] in
  Returns (Self.mk debug log_debug log_error None (log_debug || log_error)
                   on_error verbose start init_message (Some (NInt 100)) None).

Definition set_progress (progress : pynum) : M unit :=
  emit (EvSetProgress progress) ;;
  modify (Self.with_progress progress).

Definition set_message (message : option string) : M unit :=
  emit (EvSetMessage message) ;;
  modify (Self.with_message message).

Definition _update_interface : M unit :=
  self <- get ;; emit (EvUpdateInterface self).

Definition _new_progress_bar (length : pynum) (before_message : option string)
    (bar_init_message : pynum) (start : pynum) : M unit :=
  emit (EvNewProgressBar length before_message bar_init_message start).

Definition _close_progress_bar : M unit := emit EvCloseProgressBar.

Definition _print_message (message : option string) (error fatal_error : bool)
    : M unit :=
  emit (EvPrintMessage message error fatal_error).

(** [_now()], given what [datetime.now()] returns. *)
Definition _now (now : datetime) : string := strftime now.

(** [f"{message}"] *)
Definition fmt (message : option string) : string :=
  match message with
  | Some s => s
  | None => "None"
  end.

Definition nl : string := String (ascii_of_nat 10) "".

Definition _handle_debug (now : datetime) (message : option string)
    (update_type : ProgressUpdateType) : M unit :=
  self <- get ;;
  when (Self.debug_mode self && str_truthy message) then
    (let debug_text := _now now ++ " -- " ++ fmt message in
     _print_message (Some debug_text) false false).

(** The file is taken to open and accept the line: an [OSError] from
    [open] or [write] on a path that cannot be written is outside the model,
    which describes the calls whose write succeeds. *)
Definition __write_to_log (now : datetime) (message : option string) : M unit :=
  self <- get ;;
  when (str_truthy (Self.log_file self) && str_truthy message) then
    (let text := _now now ++ " -- " ++ fmt message in
     emit (EvLogAppend (fmt (Self.log_file self)) (text ++ nl))).

Definition __log_debug (now : datetime) (message : option string) : M unit :=
  self <- get ;;
  when (Self.log_debug self) then __write_to_log now message.

Definition update (now : datetime) (update_type : ProgressUpdateType)
    (progress : pynum) (message : option string) (length : pynum)
    (debug_message : option string) : M unit :=
  self <- get ;;
  if Self.debug_mode self then
    _handle_debug now (py_or debug_message message) update_type
  else
    match update_type with
    | DEBUG => ret tt
    | MAJOR =>
        if Self.verbose_mode self then
          _print_message message false false
        else
          modify (Self.with_subtask_length None) ;;
          modify (Self.with_message message) ;;
          modify (Self.with_progress_length length) ;;
          _new_progress_bar length message progress (Some (NInt 0))
    | MINOR =>
        if Self.verbose_mode self then
          modify (Self.with_progress_length length) ;;
          modify (Self.with_message message) ;;
          _new_progress_bar length message None (Some (NInt 0))
        else
          modify (Self.with_subtask_length length) ;;
          when (truthy progress) then set_progress progress ;;
          when (str_truthy message) then
            (modify (Self.with_message message) ;; set_message message) ;;
          _update_interface
    | DETAIL =>
        weighted_progress <-
          (self <- get ;;
           if Self.subtask_active self
           then lift (truediv progress (Self.get_subtask_length self))
           else ret progress) ;;
        when (truthy progress) then set_progress weighted_progress ;;
        when (str_truthy message && Self.verbose_mode self) then
          (modify (Self.with_message message) ;; set_message message) ;;
        _update_interface
    end ;;
    self <- get ;;
    when (Self.log_debug self) then __log_debug now (py_or debug_message message).

Definition major (now : datetime) (message : option string) (length : pynum)
    (debug_message : option string) : M unit :=
  update now MAJOR None message length debug_message.

Definition minor (now : datetime) (progress : pynum) (message : option string)
    (length : pynum) (debug_message : option string) : M unit :=
  update now MINOR progress message length debug_message.

Definition detail (now : datetime) (progress : pynum) (message : option string)
    (debug_message : option string) : M unit :=
  update now DETAIL progress message (Some (NInt 100)) debug_message.

Definition debug (now : datetime) (message : option string) : M unit :=
  update now DEBUG None None (Some (NInt 100)) message.

(** The abstract [_get_error_response]: the UI is asked, [reply] is what the
    user answers. *)
Definition _get_error_response (reply : string) (error : exception)
    (ctx : context) : M string :=
  emit (EvGetErrorResponse error ctx) ;; ret reply.

Section ErrorMediator.

(** [textwrap.dedent], a function of the Python library. *)
Variable dedent : string -> string.

Definition __error_info (error : exception) : outcome string :=
  match error with
  | ServerResponseError response =>
      Returns (dedent ("Server returned an error response:"
                       ++ "Status " ++ NilZero.string_of_int (Z.to_int (status_code response))
                       ++ " - " ++ reason response
                       ++ text response))
  | Exception args =>
      match args with
      | a :: _ => Returns a
      | [] => Raises IndexError
      end
  end.

(** [pprint] prints the context and returns [None], whose [str()] ends the
    logged message. *)
Definition __log_error (now : datetime) (error : exception) (ctx : context)
    : M unit :=
  self <- get ;;
  when (Self.log_error self) then
    (error_info <- lift (__error_info error) ;;
     emit (EvPPrint ctx) ;;
     let message := error_info ++ nl ++ "None" in
     __write_to_log now (Some message)).

Definition report_error (now : datetime) (reply : string) (error : exception)
    (ctx : context) : M string :=
  self <- get ;;
  response <-
    (if str_in (Self.on_error self) ["c"; "continue"] then ret "continue"
     else if str_in (Self.on_error self) ["a"; "abort"] then ret "abort"
     else _get_error_response reply error ctx) ;;
  when (Self.log_error self) then __log_error now error ctx ;;
  ret response.

End ErrorMediator.

(** The response [report_error] settles on before it logs. *)
Definition response_for (self : Self.t) (reply : string) : string :=
  if str_in (Self.on_error self) ["c"; "continue"] then "continue"
  else if str_in (Self.on_error self) ["a"; "abort"] then "abort"
  else reply.

Definition error (message : option string) (fatal : bool) : M unit :=
  _close_progress_bar ;;
  _print_message message true fatal.

(** ** Sequences of calls *)

(** One call of [update], with the time the clock shows during it. *)
Record update_call : Type := mkCall {
  at_time : datetime;
  kind : ProgressUpdateType;
  u_progress : pynum;
  u_message : option string;
  u_length : pynum;
  u_debug_message : option string
}.

Definition run_update (c : update_call) : M unit :=
  update (at_time c) (kind c) (u_progress c) (u_message c) (u_length c)
         (u_debug_message c).

(** The caller issues the calls in order; an exception ends the run. *)
Fixpoint run (calls : list update_call) : M unit :=
  match calls with
  | [] => ret tt
  | c :: rest => run_update c ;; run rest
  end.

Definition outcome_of {A} (r : outcome A * Self.t * list event) : outcome A :=
  fst (fst r).
Definition state_of {A} (r : outcome A * Self.t * list event) : Self.t :=
  snd (fst r).
Definition trace_of {A} (r : outcome A * Self.t * list event) : list event :=
  snd r.

(** ** Observations on a trace *)

(** The arguments of the calls of [set_progress], in order. *)
Fixpoint set_progress_calls (tr : list event) : list pynum :=
  match tr with
  | [] => []
  | EvSetProgress p :: rest => p :: set_progress_calls rest
  | _ :: rest => set_progress_calls rest
  end.

(** The prompts for an error response, in order. *)
Fixpoint prompts (tr : list event) : list (exception * context) :=
  match tr with
  | [] => []
  | EvGetErrorResponse e c :: rest => (e, c) :: prompts rest
  | _ :: rest => prompts rest
  end.

(** A plain printed line: [_print_message(text)]. *)
Definition is_print_line (e : event) : bool :=
  match e with
  | EvPrintMessage (Some _) false false => true
  | _ => false
  end.

(** Opening or closing a bar, setting progress or message, pushing state. *)
Definition is_bar_operation (e : event) : bool :=
  match e with
  | EvNewProgressBar _ _ _ _ | EvCloseProgressBar | EvUpdateInterface _
  | EvSetProgress _ | EvSetMessage _ => true
  | _ => false
  end.

(** [p <= l] for two numbers; [None] is no number. *)
Definition within (p l : pynum) : bool :=
  match p, l with
  | Some a, Some b => Qle_bool (num_Q a) (num_Q b)
  | _, _ => false
  end.

(** The progress held is within the current bar length. *)
Definition bounded (self : Self.t) : bool :=
  within (Self.progress self) (Self.progress_length self).

(** Every state pushed to the renderer is bounded. *)
Definition pushes_bounded (tr : list event) : Prop :=
  Forall (fun e => match e with
                   | EvUpdateInterface s => bounded s = true
                   | _ => True
                   end) tr.

(** The progress held and pushed stays within the bar length during a run. *)
Definition progress_bounded (self : Self.t) (calls : list update_call) : Prop :=
  bounded (state_of (run calls self)) = true
  /\ pushes_bounded (trace_of (run calls self)).

(** What a Detail update hands to the setter in state [self]. *)
Definition weighted (self : Self.t) (progress : pynum) : pynum :=
  if Self.subtask_active self then
    match truediv progress (Self.get_subtask_length self) with
    | Returns w => w
    | Raises _ => None
    end
  else progress.

(** The caller keeps its values in range: a new bar is at least as long as
    the progress held, a Minor progress is at most the bar length, and so is
    the weighted value of a Detail progress. *)
Definition in_range (self : Self.t) (c : update_call) : bool :=
  match kind c with
  | MAJOR => within (Self.progress self) (u_length c)
  | MINOR => negb (truthy (u_progress c))
             || within (u_progress c) (Self.progress_length self)
  | DETAIL => negb (truthy (u_progress c))
              || within (weighted self (u_progress c)) (Self.progress_length self)
  | DEBUG => true
  end.

Fixpoint disciplined (self : Self.t) (calls : list update_call) : Prop :=
  match calls with
  | [] => True
  | c :: rest =>
      in_range self c = true /\ disciplined (state_of (run_update c self)) rest
  end.

(** ** Reporters and moments used in the examples *)

Definition noon : datetime := mkDatetime 2024 3 5 12 0 0.
Definition later : datetime := mkDatetime 2024 3 5 12 0 7.

(** What [__init__] builds with the default [init_message] and [start]. *)
Definition construct (verbose debug : bool) (log on_error : string) : Self.t :=
  Self.mk debug (str_in log ["d"; "debug"]) (str_in log ["e"; "error"]) None
          (str_in log ["d"; "debug"] || str_in log ["e"; "error"])
          on_error verbose (Some (NInt 0)) None (Some (NInt 100)) None.

(** A non-verbose reporter inside a Minor scope of length 5, under a bar of
    length 10. *)
Definition importing : Self.t :=
  state_of ((major noon (Some "Importing") (Some (NInt 10)) None ;;
             minor noon None None (Some (NInt 5)) None)
            (construct false false "n" "c")).

(** The tokens the docstring of [__init__] lists. *)
Definition log_tokens : list string := ["n"; "none"; "e"; "error"; "d"; "debug"].
Definition on_error_tokens : list string :=
  ["i"; "interactive"; "c"; "continue"; "a"; "abort"].

(** ** Statements of the specification that the code is compared with *)

(** "[major(...)] always resets [subtaskLength] to absent, so a subsequent
    bare [detail(progress=p)] advances by exactly [p]", at a reporter. *)
Definition major_resets_weighting (self : Self.t) : Prop :=
  forall now1 message length debug_message,
    let s1 := state_of (major now1 message length debug_message self) in
    Self.subtask_active s1 = false
    /\ forall now2 p message' debug_message',
         num_truthy p = true ->
         exists s2 tr,
           detail now2 (Some p) message' debug_message' s1 = (Returns tt, s2, tr)
           /\ set_progress_calls tr = [Some p]
           /\ Self.progress s2 = Some p.

(** The scenario "construct with [{debugMode:true}]; call
    [major("Importing")], [detail(progress=3)]". *)
Definition debug_scenario (now1 now2 : datetime)
    : outcome unit * Self.t * list event :=
  (major now1 (Some "Importing") (Some (NInt 100)) None ;;
   detail now2 (Some (NInt 3)) None None) (construct false true "n" "i").

(** "two [printLine] calls containing timestamped text, zero bar
    operations". *)
Definition two_timestamped_lines (now1 now2 : datetime) (tr : list event) : Prop :=
  exists rest1 rest2,
    tr = [EvPrintMessage (Some (strftime now1 ++ rest1)) false false;
          EvPrintMessage (Some (strftime now2 ++ rest2)) false false].

(** "Malformed configuration should fail fast at construction". *)
Definition init_fails_fast (log on_error : string) : Prop :=
  forall init_message start verbose debug,
    exists e, __init__ init_message start verbose debug log on_error = Raises e.

(** ** Further observations on a trace *)

(** The lines appended to the log file, with the path, in order. *)
Fixpoint log_appends (tr : list event) : list (string * string) :=
  match tr with
  | [] => []
  | EvLogAppend path line :: rest => (path, line) :: log_appends rest
  | _ :: rest => log_appends rest
  end.

(** The arguments of the calls of [set_message], in order. *)
Fixpoint set_message_calls (tr : list event) : list (option string) :=
  match tr with
  | [] => []
  | EvSetMessage m :: rest => m :: set_message_calls rest
  | _ :: rest => set_message_calls rest
  end.

(** The bars opened, each with its length and the message shown before it. *)
Fixpoint new_bars (tr : list event) : list (pynum * option string) :=
  match tr with
  | [] => []
  | EvNewProgressBar length before_message _ _ :: rest =>
      (length, before_message) :: new_bars rest
  | _ :: rest => new_bars rest
  end.

Definition is_kind (k : ProgressUpdateType) (c : update_call) : bool :=
  match k, kind c with
  | MAJOR, MAJOR | MINOR, MINOR | DETAIL, DETAIL | DEBUG, DEBUG => true
  | _, _ => false
  end.

(** The kind of update that opens a bar: Minor in verbose mode, Major
    otherwise. *)
Definition bar_kind (self : Self.t) : ProgressUpdateType :=
  if Self.verbose_mode self then MINOR else MAJOR.

(** The reporter once the concrete class has assigned [log_file], which
    nothing in this class does. *)
Definition with_log_file (path : string) (s : Self.t) : Self.t :=
  Self.mk (Self.debug_mode s) (Self.log_debug s) (Self.log_error s) (Some path)
          (Self.needs_log_file s) (Self.on_error s) (Self.verbose_mode s)
          (Self.progress s) (Self.message s) (Self.progress_length s)
          (Self.subtask_length s).

(** * journal_transporter/transfer/http_connection.py

    Class [HTTPConnection].  The attributes [host], [username] and
    [password] come from its superclass; [requests.get] and [requests.post]
    are calls that leave the program, recorded with their URL and keyword
    arguments, and the response each one yields is an input. *)

Module HTTPConnection.

(** The Python values that travel through the connection: what a request
    option or a payload entry can hold.  [VObject] is any other object (an
    open file, say), which is not [None] and is truthy. *)
#[local] Set Warnings "-register-all".
Inductive pyval : Type :=
| VNone
| VBool (b : bool)
| VInt (z : Z)
| VStr (s : string)
| VList (l : list pyval)
| VTuple (l : list pyval)
| VDict (items : list (string * pyval))
| VObject (name : string).

(** A dict with string keys, as its items in insertion order. *)
Definition dict : Type := list (string * pyval).

(** [bool(v)] *)
Definition val_truthy (v : pyval) : bool :=
  match v with
  | VNone => false
  | VBool b => b
  | VInt z => negb (z =? 0)%Z
  | VStr s => negb (String.eqb s "")
  | VList l | VTuple l => match l with [] => false | _ => true end
  | VDict items => match items with [] => false | _ => true end
  | VObject _ => true
  end.

(** [v is None] *)
Definition is_none (v : pyval) : bool :=
  match v with
  | VNone => true
  | _ => false
  end.

(** [d.get(k)] where [k in d]; [None] where it is not. *)
Fixpoint lookup (k : string) (d : dict) : option pyval :=
  match d with
  | [] => None
  | (k', v) :: rest => if String.eqb k k' then Some v else lookup k rest
  end.

Definition has_key (k : string) (d : dict) : bool :=
  match lookup k d with
  | Some _ => true
  | None => false
  end.

Record t : Type := mk {
  host : string;
  username : pyval;
  password : pyval
}.

(** [s.lstrip('/')], [s.rstrip('/')] and [s.strip('/')]. *)
Fixpoint lstrip (s : string) : string :=
  match s with
  | EmptyString => EmptyString
  | String c r => if Ascii.eqb c "/" then lstrip r else s
  end.

Fixpoint rstrip (s : string) : string :=
  match s with
  | EmptyString => EmptyString
  | String c r =>
      match rstrip r with
      | EmptyString => if Ascii.eqb c "/" then EmptyString else String c EmptyString
      | r' => String c r'
      end
  end.

Definition strip (s : string) : string := rstrip (lstrip s).

(** A call of [requests.get] or [requests.post]: the URL and the keyword
    arguments. *)
Inductive request : Type :=
| Get (url : string) (request_opts : dict)
| Post (url : string) (request_opts : dict).

(** [AttributeError], and whatever [json.dumps] raises. *)
Inductive error : Type :=
| AttributeError
| DumpsError.

Inductive result (A : Type) : Type :=
| Ok (a : A)
| Error (e : error).
Arguments Ok {A} a.
Arguments Error {A} e.

(** [{k: v for (k, v) in ret.items() if v is not None}] *)
Definition drop_none (ret : dict) : dict :=
  filter (fun kv => negb (is_none (snd kv))) ret.

Definition __credentials (self : t) : dict :=
  if is_none (username self) then []
  else [("auth", VTuple [username self; password self])].

Definition __build_get_params (self : t) (params : pyval) : dict :=
  let ret := (__credentials self ++ [("params", params)])%list in
  drop_none ret.

(** What [post] accepts and tells apart: a dict, or a list of records. *)
Inductive payload : Type :=
| DictData (items : dict)
| ListData (records : list pyval).

(** What [post] returns: one response, or the list of the responses. *)
Inductive post_response : Type :=
| One (r : Response)
| Many (l : list Response).

(** [get]: [params] is the dict of the keyword arguments, so it is never
    [None]. *)
Definition get (self : t) (path : string) (is_absolute : bool) (params : dict)
    (response : Response) : Response * list request :=
  let url := if is_absolute then path
             else strip (host self) ++ "/" ++ strip path in
  let request_opts := __build_get_params self (VDict params) in
  (response, [Get url request_opts]).

(** ["k" in params]: a key of the dict, or an element of the list equal to
    the string. *)
Definition py_contains (k : string) (params : payload) : bool :=
  match params with
  | DictData items => has_key k items
  | ListData records =>
      existsb (fun v => match v with
                        | VStr s => String.eqb s k
                        | _ => false
                        end) records
  end.

(** [params.get(k)]: a list has no [get]. *)
Definition py_get (params : payload) (k : string) : result pyval :=
  match params with
  | DictData items =>
      Ok match lookup k items with
         | Some v => v
         | None => VNone
         end
  | ListData _ => Error AttributeError
  end.

(** [params.items()]: a list has no [items]. *)
Definition py_items (params : payload) : result dict :=
  match params with
  | DictData items => Ok items
  | ListData _ => Error AttributeError
  end.

Section Json.

(** [json.dumps] of a dict, a function of the Python library; [None] where
    it raises. *)
Variable json_dumps : dict -> option string.

(** The method, step by step: the ["files"] entry is read with [get] where
    ["files" in params], the body is built from [params.items()], and the
    options are assembled and filtered.  Each step is the operation of the
    payload's own type, so a list fails where a dict does not. *)
Definition __build_post_params (self : t) (params : payload) : result dict :=
  match (if py_contains "files" params then py_get params "files" else Ok VNone) with
  | Error e => Error e
  | Ok files =>
      let data_key := if val_truthy files then "data" else "json" in
      match py_items params with
      | Error e => Error e
      | Ok items =>
          let data := filter (fun kv => negb (String.eqb (fst kv) "files")) items in
          if val_truthy files then
            match json_dumps data with
            | Some j =>
                Ok (drop_none (__credentials self
                               ++ [("files", files);
                                   (data_key, VDict [("json", VStr j)])])%list)
            | None => Error DumpsError
            end
          else
            Ok (drop_none (__credentials self
                           ++ [("files", files); (data_key, VDict data)])%list)
      end
  end.

(** [post]; [respond i] is the response to the request sent for the record
    of index [i]. *)
Definition post (self : t) (path : string) (data : payload)
    (respond : nat -> Response) : result post_response * list request :=
  let url := strip (host self) ++ "/" ++ strip path ++ "/" in
  match __build_post_params self data with
  | Error e => (Error e, [])
  | Ok request_opts =>
      match data with
      | ListData records =>
          (Ok (Many (map respond (seq 0 (List.length records)))),
           map (fun _ => Post url request_opts) records)
      | DictData _ =>
          (Ok (One (respond 0%nat)), [Post url request_opts])
      end
  end.

End Json.

(** The same connection with another [host]. *)
Definition with_host (h : string) (self : t) : t :=
  mk h (username self) (password self).

(** The ["files"] entry of a payload; [None] where there is none. *)
Definition files_of (items : dict) : pyval :=
  match lookup "files" items with
  | Some v => v
  | None => VNone
  end.

(** A connection with credentials, and a payload with a file. *)
Definition server : t := mk "https://journals.example.org/" (VStr "editor") (VStr "secret").

Definition upload : dict :=
  [("title", VStr "Issue 1"); ("files", VObject "issue1.pdf"); ("year", VInt 2024)].

End HTTPConnection.

(** * Properties *)

#[local] Arguments strftime : simpl never.
#[local] Arguments Qdiv : simpl never.
#[local] Arguments Qle_bool : simpl never.
#[local] Arguments Qeq_bool : simpl never.
#[local] Arguments String.append : simpl never.

(** Unfold the methods down to the monad's primitives. *)
Ltac unfold_methods :=
  unfold run_update, major, minor, detail, debug, update, _handle_debug, __log_debug,
    __write_to_log, set_progress, set_message, _update_interface,
    _new_progress_bar, _close_progress_bar, _print_message,
    _get_error_response, bind, get, modify, emit, ret, lift in *.

Ltac unfold_report :=
  unfold report_error, __log_error, __error_info; unfold_methods; unfold _now.

(** Run a method symbolically, splitting on every test it makes. *)
Ltac crush_update :=
  unfold_methods; unfold _now, Self.subtask_active, Self.get_subtask_length in *;
  cbn in *; rewrite ?andb_false_r, ?andb_true_r in *;
  repeat (first
    [ progress subst
    | match goal with
      | H : ?b = _ |- context [if ?b then _ else _] => rewrite H
      | |- context [if ?b then _ else _] => destruct b eqn:?
      end
    | progress cbn in * ]).

(** ** Basic facts *)

Lemma init_construct verbose debug log on_error :
  __init__ None (Some (NInt 0)) verbose debug log on_error
  = Returns (construct verbose debug log on_error).
Proof. reflexivity. Qed.

Lemma print_line_no_bar_operation e :
  is_print_line e = true -> is_bar_operation e = false.
Proof. destruct e; cbn; congruence. Qed.

Lemma str_in_app x l1 l2 : str_in x (l1 ++ l2) = str_in x l1 || str_in x l2.
Proof. unfold str_in. apply existsb_app. Qed.

(** A run is its first call followed by the rest, unless the call raises. *)
Lemma run_cons c rest self :
  run (c :: rest) self =
    match run_update c self with
    | (Returns _, s1, t1) =>
        (outcome_of (run rest s1), state_of (run rest s1),
         (t1 ++ trace_of (run rest s1))%list)
    | (Raises e, s1, t1) => (Raises e, s1, t1)
    end.
Proof.
  cbn [run]. unfold bind.
  destruct (run_update c self) as [[[a|e] s1] t1]; [|reflexivity].
  destruct (run rest s1) as [[o s2] t2]. reflexivity.
Qed.

(** In debug mode [update] is [_handle_debug]: at most one printed line, and
    the reporter is left as it was. *)
Lemma update_in_debug_mode self now k p m l d :
  Self.debug_mode self = true ->
  update now k p m l d self =
    (Returns tt, self,
     if str_truthy (py_or d m)
     then [EvPrintMessage (Some (strftime now ++ " -- " ++ fmt (py_or d m))) false false]
     else []).
Proof.
  intros Hd. destruct self; cbn in Hd; subst.
  unfold_methods; unfold _now; cbn.
  destruct (str_truthy (py_or d m)); reflexivity.
Qed.

(** [update] never touches the configuration, and in verbose mode it never
    touches [subtask_length]. *)
Lemma update_preserves_config self now k p m l d :
  let s' := state_of (update now k p m l d self) in
  Self.debug_mode s' = Self.debug_mode self
  /\ Self.verbose_mode s' = Self.verbose_mode self
  /\ Self.log_debug s' = Self.log_debug self
  /\ Self.log_error s' = Self.log_error self
  /\ Self.on_error s' = Self.on_error self
  /\ (Self.verbose_mode self = true -> Self.subtask_length s' = Self.subtask_length self).
Proof.
  destruct self as [? ? ? ? ? ? ? ? ? ? [[L|]|]]; destruct p as [p|]; destruct k;
    unfold state_of, truediv;
    crush_update; repeat split; try reflexivity; try discriminate.
Qed.

(** A verbose reporter never gets a [subtask_length]: whatever is called
    after construction, Detail updates stay unweighted. *)
Lemma verbose_mode_never_weights calls : forall self,
  Self.verbose_mode self = true -> Self.subtask_length self = None ->
  Self.verbose_mode (state_of (run calls self)) = true
  /\ Self.subtask_length (state_of (run calls self)) = None.
Proof.
  induction calls as [|c rest IH]; intros self Hv Hs.
  - split; assumption.
  - rewrite run_cons.
    pose proof (update_preserves_config self (at_time c) (kind c) (u_progress c)
                  (u_message c) (u_length c) (u_debug_message c)) as Hc.
    cbn zeta in Hc. destruct Hc as (_ & Hv' & _ & _ & _ & Hs').
    fold (run_update c) in Hv', Hs'.
    destruct (run_update c self) as [[[[]|e] s1] t1]; unfold state_of in *; cbn in *.
    + apply IH; [congruence | rewrite Hs' by assumption; assumption].
    + split; [congruence | rewrite Hs' by assumption; assumption].
Qed.

(** ** Weighting of Detail updates *)

(** C1.  In non-verbose, non-debug mode a Detail update with a nonzero
    progress [p] calls the progress setter exactly once: with [p / L] when a
    Minor update has left a nonzero [subtask_length] [L], and with [p] itself
    when [subtask_length] is absent (never assigned, or [None]).  The value
    is also what the reporter then holds. *)
Theorem detail_weighting (self : Self.t) (now : datetime) (p : num)
    (message : option string) (length : pynum) (debug_message : option string) :
  Self.debug_mode self = false ->
  Self.verbose_mode self = false ->
  num_truthy p = true ->
  (forall L,
      Self.subtask_length self = Some (Some L) -> num_truthy L = true ->
      exists self' tr,
        update now DETAIL (Some p) message length debug_message self
        = (Returns tt, self', tr)
        /\ set_progress_calls tr = [Some (NFloat (num_Q p / num_Q L))]
        /\ Self.progress self' = Some (NFloat (num_Q p / num_Q L)))
  /\ (Self.subtask_length self = None \/ Self.subtask_length self = Some None ->
      exists self' tr,
        update now DETAIL (Some p) message length debug_message self
        = (Returns tt, self', tr)
        /\ set_progress_calls tr = [Some p]
        /\ Self.progress self' = Some p).
Proof.
  intros Hd Hv Hp. destruct self; cbn in Hd, Hv; subst.
  split.
  - intros L HL HtL. cbn in HL. subst.
    crush_update; do 2 eexists; repeat split; reflexivity.
  - intros [H|H]; cbn in H; subst;
    crush_update; do 2 eexists; repeat split; reflexivity.
Qed.

(** The scenario of the specification: after [major("Importing", length=10)]
    and [minor(length=5)], [detail(progress=3)] sets 3/5; on a fresh
    reporter it sets 3. *)
Lemma detail_weighting_witness :
  (exists self' tr,
      update later DETAIL (Some (NInt 3)) None (Some (NInt 100)) None importing
      = (Returns tt, self', tr)
      /\ set_progress_calls tr = [Some (NFloat (3 # 5)%Q)]
      /\ Self.progress self' = Some (NFloat (3 # 5)%Q))
  /\ (exists self' tr,
      update later DETAIL (Some (NInt 3)) None (Some (NInt 100)) None
             (construct false false "n" "c")
      = (Returns tt, self', tr)
      /\ set_progress_calls tr = [Some (NInt 3)]
      /\ Self.progress self' = Some (NInt 3)).
Proof.
  split.
  - exact (proj1 (detail_weighting importing later (NInt 3) None (Some (NInt 100))
                    None eq_refl eq_refl eq_refl) (NInt 5) eq_refl eq_refl).
  - exact (proj2 (detail_weighting (construct false false "n" "c") later (NInt 3)
                    None (Some (NInt 100)) None eq_refl eq_refl eq_refl)
                 (or_introl eq_refl)).
Defined.

(** C2, as stated, fails in debug mode: [major] and [detail] only print, so
    the setter is never called. *)
Lemma major_resets_weighting_fails_in_debug_mode :
  ~ major_resets_weighting (construct false true "n" "i").
Proof.
  intros H.
  destruct (H noon (Some "Importing") (Some (NInt 100)) None) as [_ H2].
  destruct (H2 later (NInt 3) None None eq_refl) as (s2 & tr & Heq & Hcalls & _).
  vm_compute in Heq. inversion Heq; subst. discriminate Hcalls.
Qed.

(** In verbose mode a Major update only prints: a [subtask_length] put on the
    object from outside survives it and still weights the next Detail. *)
Lemma major_keeps_subtask_length_when_verbose :
  let self := Self.with_subtask_length (Some (NInt 5)) (construct true false "n" "i") in
  let s1 := state_of (major noon (Some "Importing") (Some (NInt 10)) None self) in
  Self.subtask_length s1 = Some (Some (NInt 5))
  /\ Self.progress (state_of (detail later (Some (NInt 3)) None None s1))
     = Some (NFloat (3 # 5)%Q).
Proof. split; reflexivity. Qed.

(** C2, amended.  Outside debug mode, and provided a verbose reporter has no
    active [subtask_length] (the code never gives it one), a Major update
    returns and leaves no active [subtask_length] - in non-verbose mode
    because it resets it to [None], in verbose mode because it does not touch
    it - so a Detail update with nonzero progress [p] issued next calls the
    setter with exactly [p] and the reporter holds [p]. *)
Theorem major_then_detail_unweighted (self : Self.t) (now1 : datetime)
    (message : option string) (length : pynum) (debug_message : option string) :
  Self.debug_mode self = false ->
  (Self.verbose_mode self = true -> Self.subtask_active self = false) ->
  exists s1 tr1,
    major now1 message length debug_message self = (Returns tt, s1, tr1)
    /\ (Self.verbose_mode self = false -> Self.subtask_length s1 = Some None)
    /\ (Self.verbose_mode self = true ->
        Self.subtask_length s1 = Self.subtask_length self)
    /\ forall now2 p message' debug_message',
         num_truthy p = true ->
         exists s2 tr2,
           detail now2 (Some p) message' debug_message' s1 = (Returns tt, s2, tr2)
           /\ set_progress_calls tr2 = [Some p]
           /\ Self.progress s2 = Some p.
Proof.
  intros Hd Hv.
  destruct self as [? ? ? ? ? ? vm ? ? ? [[L|]|]]; cbn in Hd; subst;
    destruct vm; unfold Self.subtask_active in Hv; cbn in Hv;
    try specialize (Hv eq_refl);
    crush_update;
    do 2 eexists; (split; [reflexivity|]);
    (split; [intros; try discriminate; reflexivity|]);
    (split; [intros; try discriminate; reflexivity|]);
    intros now2 p message' debug_message' Hp;
    crush_update; do 2 eexists; repeat split; reflexivity.
Qed.

(** A Major update inside an active Minor scope of length 5. *)
Lemma major_then_detail_unweighted_witness :
  exists s1 tr1,
    major noon (Some "Exporting") (Some (NInt 4)) None importing = (Returns tt, s1, tr1)
    /\ (Self.verbose_mode importing = false -> Self.subtask_length s1 = Some None)
    /\ (Self.verbose_mode importing = true ->
        Self.subtask_length s1 = Self.subtask_length importing)
    /\ forall now2 p message' debug_message',
         num_truthy p = true ->
         exists s2 tr2,
           detail now2 (Some p) message' debug_message' s1 = (Returns tt, s2, tr2)
           /\ set_progress_calls tr2 = [Some p]
           /\ Self.progress s2 = Some p.
Proof.
  apply (major_then_detail_unweighted importing noon (Some "Exporting") (Some (NInt 4)) None).
  - reflexivity.
  - intros H. discriminate H.
Defined.

(** ** Detail updates without progress *)

(** C3.  What the code does with a Detail update that carries no progress,
    in non-verbose, non-debug mode.  Without an active [subtask_length] it
    returns, leaves the reporter as it was and only pushes its state (and
    appends to the log when debug logging is on).  With an active
    [subtask_length] the division [progress / self.subtask_length] is
    evaluated before [progress] is tested, and [None / L] raises
    [TypeError]: the call does not complete. *)
Theorem detail_without_progress (self : Self.t) (now : datetime)
    (message : option string) (length : pynum) (debug_message : option string) :
  Self.debug_mode self = false ->
  Self.verbose_mode self = false ->
  (Self.subtask_active self = false ->
   exists tr,
     update now DETAIL None message length debug_message self = (Returns tt, self, tr)
     /\ Forall (fun e => e = EvUpdateInterface self
                         \/ exists path line, e = EvLogAppend path line) tr)
  /\ (Self.subtask_active self = true ->
      update now DETAIL None message length debug_message self
      = (Raises TypeError, self, [])).
Proof.
  intros Hd Hv. split; intros Hs.
  - destruct self as [? ? ? ? ? ? ? ? ? ? [[L|]|]]; cbn in Hd, Hv;
      unfold Self.subtask_active in Hs; cbn in Hs; subst;
      crush_update; eexists; (split; [reflexivity|]);
      repeat first
        [ apply Forall_nil
        | apply Forall_cons;
          [ first [ left; reflexivity | right; do 2 eexists; reflexivity ] | ] ].
  - destruct self as [? ? ? ? ? ? ? ? ? ? [[L|]|]]; cbn in Hd, Hv;
      unfold Self.subtask_active in Hs; cbn in Hs; try discriminate; subst.
    crush_update. reflexivity.
Qed.

(** [minor(length=5)] then [detail()] raises; [detail()] on a fresh reporter
    returns. *)
Lemma detail_without_progress_witness :
  detail later None None None importing = (Raises TypeError, importing, [])
  /\ exists tr,
       detail later None None None (construct false false "n" "c")
       = (Returns tt, construct false false "n" "c", tr)
       /\ Forall (fun e => e = EvUpdateInterface (construct false false "n" "c")
                           \/ exists path line, e = EvLogAppend path line) tr.
Proof.
  split.
  - exact (proj2 (detail_without_progress importing later None (Some (NInt 100)) None
                    eq_refl eq_refl) eq_refl).
  - exact (proj1 (detail_without_progress (construct false false "n" "c") later None
                    (Some (NInt 100)) None eq_refl eq_refl) eq_refl).
Defined.

(** ** Zero progress *)

(** C10.  What the code does with a Minor or Detail update carrying a zero
    progress.  In every mode and every state it returns, leaves the progress
    held unchanged and never calls the setter: the zero is dropped.  For a
    Minor update, in debug mode, and outside an active Minor scope, the call
    is exactly the call without progress: same outcome, state and trace.
    But for a Detail update inside an active Minor scope the two differ:
    with progress 0 the call returns, without progress it raises
    [TypeError], because [progress / self.subtask_length] is evaluated
    before [progress] is tested. *)
Theorem zero_progress_is_dropped (self : Self.t) (now : datetime)
    (k : ProgressUpdateType) (z : num) (message : option string) (length : pynum)
    (debug_message : option string) :
  k = MINOR \/ k = DETAIL ->
  num_truthy z = false ->
  (exists self' tr,
      update now k (Some z) message length debug_message self = (Returns tt, self', tr)
      /\ Self.progress self' = Self.progress self
      /\ set_progress_calls tr = [])
  /\ (k = MINOR \/ Self.debug_mode self = true \/ Self.subtask_active self = false ->
      update now k None message length debug_message self
      = update now k (Some z) message length debug_message self)
  /\ (k = DETAIL -> Self.debug_mode self = false -> Self.subtask_active self = true ->
      update now k None message length debug_message self = (Raises TypeError, self, [])
      /\ outcome_of (update now k (Some z) message length debug_message self)
         = Returns tt).
Proof.
  intros Hk Hz.
  destruct self as [dm ? ? ? ? ? ? ? ? ? [[L|]|]]; destruct dm;
    destruct Hk; subst k; unfold truediv, outcome_of;
    crush_update;
    (split; [do 2 eexists; repeat split; reflexivity|]);
    (split; [intros H; try reflexivity;
             destruct H as [H|[H|H]]; cbn in H; congruence
            | intros H1 H2 H3; cbn in *; try discriminate; split; reflexivity]).
Qed.

(** Inside the Minor scope of length 5, [detail(progress=0)] returns and
    keeps the progress, while [detail()] raises. *)
Lemma zero_progress_is_dropped_witness :
  (exists self' tr,
      update later DETAIL (Some (NInt 0)) None (Some (NInt 100)) None importing
      = (Returns tt, self', tr)
      /\ Self.progress self' = Self.progress importing
      /\ set_progress_calls tr = [])
  /\ update later DETAIL None None (Some (NInt 100)) None importing
     = (Raises TypeError, importing, [])
  /\ update later MINOR None None (Some (NInt 5)) None importing
     = update later MINOR (Some (NInt 0)) None (Some (NInt 5)) None importing.
Proof.
  destruct (zero_progress_is_dropped importing later DETAIL (NInt 0) None
              (Some (NInt 100)) None (or_intror eq_refl) eq_refl)
    as (Hzero & _ & Hraise).
  destruct (zero_progress_is_dropped importing later MINOR (NInt 0) None
              (Some (NInt 5)) None (or_introl eq_refl) eq_refl)
    as (_ & Hsame & _).
  split; [exact Hzero|]. split.
  - exact (proj1 (Hraise eq_refl eq_refl eq_refl)).
  - exact (Hsame (or_introl eq_refl)).
Defined.

(** ** The progress held and the bar length *)

(** One call keeps a non-verbose reporter bounded when its values are in
    range, whether it returns or raises. *)
Lemma update_keeps_bounded self c :
  Self.verbose_mode self = false ->
  bounded self = true ->
  in_range self c = true ->
  bounded (state_of (run_update c self)) = true
  /\ pushes_bounded (trace_of (run_update c self))
  /\ Self.verbose_mode (state_of (run_update c self)) = false.
Proof.
  intros Hv Hb Hr.
  destruct c as [now k p m l d].
  destruct self as [dm ? ? ? ? ? ? ? ? ? [[L|]|]]; destruct dm; destruct p as [p|];
    destruct k; cbn in Hv; subst;
    unfold in_range, weighted, bounded, pushes_bounded, state_of, trace_of, truediv in *;
    crush_update; try discriminate;
    repeat split; auto;
    repeat first [ apply Forall_nil | apply Forall_cons; [ cbn; auto | ] ].
Qed.

(** C4, as stated, fails: nothing clamps the value given to the setter.
    After [major("Importing", length=10)] and [minor(length=5)],
    [detail(progress=60)] makes the reporter hold and push 12. *)
Lemma progress_exceeds_bar_length :
  ~ progress_bounded (construct false false "n" "c")
      [mkCall noon MAJOR None (Some "Importing") (Some (NInt 10)) None;
       mkCall noon MINOR None None (Some (NInt 5)) None;
       mkCall later DETAIL (Some (NInt 60)) None (Some (NInt 100)) None].
Proof.
  intros [H _]. vm_compute in H. discriminate H.
Qed.

(** C4, amended.  In non-verbose mode, for every sequence of update calls
    whose values the caller keeps in range (each new bar length is at least
    the progress held, each nonzero Minor progress is at most the bar length,
    each nonzero Detail progress is at most the bar length once weighted),
    a reporter that starts within its bar length stays within it: the
    progress held at the end, and in every state pushed to the renderer,
    never exceeds the bar length set last. *)
Theorem progress_bounded_when_in_range (calls : list update_call) :
  forall self : Self.t,
    Self.verbose_mode self = false ->
    bounded self = true ->
    disciplined self calls ->
    progress_bounded self calls.
Proof.
  unfold progress_bounded.
  induction calls as [|c rest IH]; intros self Hv Hb Hd.
  - split; [exact Hb | constructor].
  - destruct Hd as [Hr Hd].
    destruct (update_keeps_bounded self c Hv Hb Hr) as (Hb1 & Hp1 & Hv1).
    rewrite run_cons.
    destruct (run_update c self) as [[[[]|e] s1] t1];
      unfold state_of, trace_of in *; cbn [fst snd] in *.
    + destruct (IH s1 Hv1 Hb1 Hd) as [Hb2 Hp2].
      split; [exact Hb2 | apply Forall_app; split; assumption].
    + split; assumption.
Qed.

(** [major("Importing", length=10)], [minor(progress=2, length=5)],
    [detail(progress=3)]. *)
Lemma progress_bounded_when_in_range_witness :
  progress_bounded (construct false false "n" "c")
    [mkCall noon MAJOR None (Some "Importing") (Some (NInt 10)) None;
     mkCall noon MINOR (Some (NInt 2)) (Some "Issue 2") (Some (NInt 5)) None;
     mkCall later DETAIL (Some (NInt 3)) None (Some (NInt 100)) None].
Proof.
  apply progress_bounded_when_in_range.
  - reflexivity.
  - reflexivity.
  - cbn [disciplined]. repeat split; vm_compute; reflexivity.
Defined.

(** ** Debug mode *)

(** C7.  With [debug_mode] on, every sequence of updates of every kind
    returns, leaves the reporter as it was, and issues nothing but plain
    printed lines: no bar is opened or closed, no progress or message is
    set, no state is pushed. *)
Theorem debug_mode_only_prints (self : Self.t) (calls : list update_call) :
  Self.debug_mode self = true ->
  exists tr,
    run calls self = (Returns tt, self, tr)
    /\ Forall (fun e => is_print_line e = true) tr
    /\ Forall (fun e => is_bar_operation e = false) tr.
Proof.
  intros Hd. induction calls as [|c rest IH].
  - exists []. repeat split; constructor.
  - destruct IH as (tr & Hrun & Hp & Hb).
    rewrite run_cons. unfold run_update.
    rewrite (update_in_debug_mode _ _ _ _ _ _ _ Hd), Hrun.
    cbn [outcome_of state_of trace_of fst snd].
    eexists. split; [reflexivity|].
    destruct (str_truthy _); cbn [app]; split; auto;
      constructor; auto.
Qed.

(** One update of each kind on a reporter built with [debug=True]. *)
Lemma debug_mode_only_prints_witness :
  exists tr,
    run [mkCall noon MAJOR None (Some "Importing") (Some (NInt 10)) None;
         mkCall noon MINOR (Some (NInt 1)) (Some "Issue 1") (Some (NInt 5)) None;
         mkCall later DETAIL (Some (NInt 3)) None (Some (NInt 100)) (Some "article 3");
         mkCall later DEBUG None None (Some (NInt 100)) (Some "GET /journals")]
        (construct false true "n" "i")
    = (Returns tt, construct false true "n" "i", tr)
    /\ Forall (fun e => is_print_line e = true) tr
    /\ Forall (fun e => is_bar_operation e = false) tr.
Proof.
  apply (debug_mode_only_prints (construct false true "n" "i")). reflexivity.
Defined.

(** C8, as stated, fails: [detail(progress=3)] has neither message nor debug
    message, and [_handle_debug] prints only when it has a message, so the
    scenario prints one line, not two. *)
Lemma debug_scenario_prints_one_line :
  ~ two_timestamped_lines noon later (trace_of (debug_scenario noon later)).
Proof.
  intros (rest1 & rest2 & H).
  apply (f_equal (@List.length event)) in H. vm_compute in H. discriminate H.
Qed.

(** C8, amended.  With [debug_mode] on, [major("Importing")] followed by
    [detail(progress=3)] returns and produces exactly one printed line, the
    timestamp of the Major call followed by [" -- Importing"]; the Detail
    call, which carries no message, prints nothing; there is no bar
    operation, and the reporter is left as constructed. *)
Theorem debug_scenario_trace (now1 now2 : datetime) :
  debug_scenario now1 now2
  = (Returns tt, construct false true "n" "i",
     [EvPrintMessage (Some (strftime now1 ++ " -- Importing")) false false])
  /\ Forall (fun e => is_bar_operation e = false) (trace_of (debug_scenario now1 now2)).
Proof.
  split; [reflexivity|]. repeat constructor.
Qed.

(** ** Reporting errors *)

Section ErrorMediatorFacts.

Variable dedent : string -> string.

(** When logging the error cannot fail, [report_error] returns the response
    its mode selects, and asks the user only in the remaining mode. *)
Lemma report_error_dispatch self now reply error ctx :
  Self.log_error self = false \/ (exists s, __error_info dedent error = Returns s) ->
  exists tr,
    report_error dedent now reply error ctx self
    = (Returns (response_for self reply), self, tr)
    /\ prompts tr =
       if str_in (Self.on_error self) ["c"; "continue"; "a"; "abort"]
       then [] else [(error, ctx)].
Proof.
  intros H. unfold response_for.
  destruct self as [? ? le ? ? oe ? ? ? ? ?]; cbn [Self.on_error].
  unfold str_in; cbn [existsb]. rewrite !orb_false_r.
  destruct H as [H | [s H]].
  - cbn in H. subst le. unfold_report. cbn.
    destruct (oe =? "c")%string, (oe =? "continue")%string,
      (oe =? "a")%string, (oe =? "abort")%string; cbn;
      eexists; split; reflexivity.
  - unfold_report. cbn.
    destruct (oe =? "c")%string, (oe =? "continue")%string,
      (oe =? "a")%string, (oe =? "abort")%string; cbn;
      destruct le; cbn; unfold __error_info in H; rewrite ?H; cbn;
      match goal with |- context [if ?b then _ else _] => destruct b | _ => idtac end;
      cbn; eexists; split; reflexivity.
Qed.

(** With error logging on, an exception without [args] makes [__error_info]
    raise [IndexError] at [error.args[0]], whatever the mode. *)
Lemma report_error_empty_args self now reply ctx :
  Self.log_error self = true ->
  outcome_of (report_error dedent now reply (Exception []) ctx self)
  = Raises IndexError.
Proof.
  intros H. destruct self as [? ? le ? ? oe ? ? ? ? ?]. cbn in H. subst le.
  unfold outcome_of. unfold_report. cbn.
  destruct (oe =? "c")%string, (oe =? "continue")%string,
    (oe =? "a")%string, (oe =? "abort")%string; reflexivity.
Qed.

Lemma abort_is_not_continue oe :
  str_in oe ["a"; "abort"] = true -> str_in oe ["c"; "continue"] = false.
Proof.
  unfold str_in; cbn [existsb]. rewrite !orb_false_r. intros H.
  apply orb_true_iff in H. destruct H as [H|H];
    apply String.eqb_eq in H; subst oe; reflexivity.
Qed.

(** C5.  What [report_error] does in each mode.  Whenever logging the error
    cannot fail (error logging is off, or the error is a
    [ServerResponseError] or has at least one arg) it returns ["continue"]
    without a prompt in the continue mode, ["abort"] without a prompt in the
    abort mode, and otherwise prompts exactly once and returns the answer as
    it is.  But with error logging on and an exception that has no [args],
    it raises [IndexError] in every mode and returns no response. *)
Theorem report_error_response (self : Self.t) (now : datetime) (reply : string)
    (error : exception) (ctx : context) :
  (Self.log_error self = false \/ (exists s, __error_info dedent error = Returns s) ->
   exists r tr,
     report_error dedent now reply error ctx self = (Returns r, self, tr)
     /\ (str_in (Self.on_error self) ["c"; "continue"] = true ->
         r = "continue" /\ prompts tr = [])
     /\ (str_in (Self.on_error self) ["a"; "abort"] = true ->
         r = "abort" /\ prompts tr = [])
     /\ (str_in (Self.on_error self) ["c"; "continue"; "a"; "abort"] = false ->
         r = reply /\ prompts tr = [(error, ctx)]))
  /\ (Self.log_error self = true -> error = Exception [] ->
      outcome_of (report_error dedent now reply error ctx self) = Raises IndexError).
Proof.
  split.
  - intros H.
    destruct (report_error_dispatch self now reply error ctx H) as (tr & Hrun & Hp).
    exists (response_for self reply), tr. split; [exact Hrun|].
    unfold response_for.
    change ["c"; "continue"; "a"; "abort"]
      with (["c"; "continue"] ++ ["a"; "abort"])%list in *.
    rewrite str_in_app in *.
    repeat split.
    + rewrite H0. reflexivity.
    + rewrite Hp, H0. reflexivity.
    + rewrite (abort_is_not_continue _ H0), H0. reflexivity.
    + rewrite Hp, H0, orb_true_r. reflexivity.
    + apply orb_false_iff in H0. destruct H0 as [Hc Ha]. rewrite Hc, Ha. reflexivity.
    + rewrite Hp, H0. reflexivity.
  - intros Hl He. subst error. apply report_error_empty_args. exact Hl.
Qed.

(** C6.  [report_error] can raise on its own account: with error logging on,
    an exception constructed without arguments makes it raise [IndexError],
    for every mode, reply and context. *)
Theorem report_error_raises_on_empty_args (self : Self.t) (now : datetime)
    (reply : string) (ctx : context) :
  Self.log_error self = true ->
  exists tr,
    report_error dedent now reply (Exception []) ctx self
    = (Raises IndexError, self, tr)
    /\ Forall (fun e => e = EvGetErrorResponse (Exception []) ctx) tr.
Proof.
  intros H. destruct self as [? ? le ? ? oe ? ? ? ? ?]. cbn in H. subst le.
  unfold_report. cbn.
  destruct (oe =? "c")%string, (oe =? "continue")%string,
    (oe =? "a")%string, (oe =? "abort")%string;
    eexists; (split; [reflexivity|]); repeat constructor.
Qed.

End ErrorMediatorFacts.

(** [errorMode="abort"] and [reportError(SomeError("boom"), {record: 1})]
    returns ["abort"] without a prompt, also with error logging on; with the
    same configuration, an exception without args is not answered at all. *)
Lemma report_error_response_witness :
  (exists r tr,
      report_error (fun s => s) noon "retry" (Exception ["boom"]) [("record", "1")]
                   (construct false false "e" "abort")
      = (Returns r, construct false false "e" "abort", tr)
      /\ r = "abort" /\ prompts tr = [])
  /\ outcome_of (report_error (fun s => s) noon "retry" (Exception [])
                              [("record", "1")] (construct false false "e" "abort"))
     = Raises IndexError.
Proof.
  split.
  - destruct (proj1 (report_error_response (fun s => s)
                       (construct false false "e" "abort") noon "retry"
                       (Exception ["boom"]) [("record", "1")])
                    (or_intror (ex_intro _ "boom" eq_refl)))
      as (r & tr & Hrun & _ & Habort & _).
    exists r, tr. split; [exact Hrun | exact (Habort eq_refl)].
  - exact (proj2 (report_error_response (fun s => s)
                    (construct false false "e" "abort") noon "retry"
                    (Exception []) [("record", "1")]) eq_refl eq_refl).
Defined.

(** [log="error"], [on_error="continue"], [report_error(Exception(), ...)]. *)
Lemma report_error_raises_on_empty_args_witness :
  exists tr,
    report_error (fun s => s) noon "retry" (Exception []) [("record", "1")]
                 (construct false false "error" "continue")
    = (Raises IndexError, construct false false "error" "continue", tr)
    /\ Forall (fun e => e = EvGetErrorResponse (Exception []) [("record", "1")]) tr.
Proof.
  apply (report_error_raises_on_empty_args (fun s => s)
           (construct false false "error" "continue")).
  reflexivity.
Defined.

(** ** Construction *)

(** C9, as stated, fails: [__init__] checks no token, so construction with
    an unknown [log] and an unknown [on_error] returns a reporter. *)
Lemma bogus_tokens_are_accepted : ~ init_fails_fast "bogus" "sometimes".
Proof.
  intros H. destruct (H None (Some (NInt 0)) false false) as [e He].
  discriminate He.
Qed.

(** C9, amended.  Construction never signals an error, whatever the tokens.
    An unrecognized [log] token gives a reporter that logs nothing (as
    ["n"] does).  An unrecognized [on_error] token is stored as given and
    [report_error] treats it exactly as it treats ["interactive"]: it
    prompts exactly once, and its outcome and trace are those of the
    reporter built with ["interactive"]; the answer is returned whenever
    logging the error does not raise, that is, when error logging is off or
    the error can be described. *)
Theorem init_accepts_every_token (init_message : option string) (start : pynum)
    (verbose debug : bool) (log on_error : string) :
  exists self,
    __init__ init_message start verbose debug log on_error = Returns self
    /\ Self.on_error self = on_error
    /\ (str_in log log_tokens = false ->
        Self.log_debug self = false /\ Self.log_error self = false
        /\ Self.needs_log_file self = false)
    /\ (str_in on_error on_error_tokens = false ->
        forall dedent now reply error ctx,
          prompts (trace_of (report_error dedent now reply error ctx self))
          = [(error, ctx)]
          /\ (forall interactive,
                 __init__ init_message start verbose debug log "interactive"
                 = Returns interactive ->
                 outcome_of (report_error dedent now reply error ctx self)
                 = outcome_of (report_error dedent now reply error ctx interactive)
                 /\ trace_of (report_error dedent now reply error ctx self)
                    = trace_of (report_error dedent now reply error ctx interactive))
          /\ (Self.log_error self = false
               \/ (exists s, __error_info dedent error = Returns s) ->
               outcome_of (report_error dedent now reply error ctx self)
               = Returns reply)
          /\ (Self.log_error self = false ->
               report_error dedent now reply error ctx self
               = (Returns reply, self, [EvGetErrorResponse error ctx]))).
Proof.
  eexists. split; [reflexivity|]. split; [reflexivity|]. split.
  - change log_tokens with (["n"; "none"] ++ ["e"; "error"] ++ ["d"; "debug"])%list.
    rewrite !str_in_app. intros H.
    apply orb_false_iff in H. destruct H as [_ H].
    apply orb_false_iff in H. destruct H as [He Hd].
    cbn [Self.log_debug Self.log_error Self.needs_log_file].
    rewrite He, Hd. auto.
  - change on_error_tokens
      with (["i"; "interactive"] ++ ["c"; "continue"] ++ ["a"; "abort"])%list.
    rewrite !str_in_app. intros H.
    apply orb_false_iff in H. destruct H as [_ H].
    apply orb_false_iff in H. destruct H as [Hc Ha].
    intros dedent now reply error ctx.
    cbn [Self.log_error].
    repeat split.
    + unfold trace_of. unfold_report. cbn -[str_in]. rewrite Hc, Ha.
      destruct (str_in log ["e"; "error"]); cbn;
        destruct error as [r|[|a args]]; reflexivity.
    + inversion H; subst. unfold outcome_of. unfold_report. cbn -[str_in].
      rewrite Hc, Ha. cbn.
      destruct (log =? "e")%string, (log =? "error")%string;
        destruct error as [r|[|a args]]; cbn; reflexivity.
    + inversion H; subst. unfold trace_of. unfold_report. cbn -[str_in].
      rewrite Hc, Ha. cbn.
      destruct (log =? "e")%string, (log =? "error")%string;
        destruct error as [r|[|a args]]; cbn; reflexivity.
    + intros Hok. unfold outcome_of. unfold_report. cbn -[str_in]. rewrite Hc, Ha.
      destruct Hok as [Hl | [info Hi]].
      * rewrite Hl. reflexivity.
      * destruct (str_in log ["e"; "error"]); cbn; [|reflexivity].
        unfold __error_info in Hi. rewrite Hi. reflexivity.
    + intros Hl. unfold_report. cbn -[str_in]. rewrite Hc, Ha, Hl. reflexivity.
Qed.

(** [log="e"], [on_error="sometimes"]: error logging is on, the user is
    asked once and the answer comes back, as with ["interactive"]. *)
Lemma init_accepts_every_token_witness :
  exists self,
    __init__ None (Some (NInt 0)) false false "e" "sometimes" = Returns self
    /\ Self.on_error self = "sometimes"
    /\ prompts (trace_of (report_error (fun s => s) noon "retry" (Exception ["boom"])
                                       [("record", "1")] self))
       = [(Exception ["boom"], [("record", "1")])]
    /\ outcome_of (report_error (fun s => s) noon "retry" (Exception ["boom"])
                                [("record", "1")] self)
       = outcome_of (report_error (fun s => s) noon "retry" (Exception ["boom"])
                                  [("record", "1")]
                                  (construct false false "e" "interactive"))
    /\ outcome_of (report_error (fun s => s) noon "retry" (Exception ["boom"])
                                [("record", "1")] self)
       = Returns "retry".
Proof.
  destruct (init_accepts_every_token None (Some (NInt 0)) false false "e" "sometimes")
    as (self & Hinit & Hmode & _ & Hask).
  destruct (Hask eq_refl (fun s => s) noon "retry" (Exception ["boom"])
                 [("record", "1")])
    as (Hprompt & Hsame & Hret & _).
  exists self. repeat split; try assumption.
  - exact (proj1 (Hsame (construct false false "e" "interactive") eq_refl)).
  - apply Hret. right. exists "boom". reflexivity.
Defined.

(** * Further properties of the reporter *)

Lemma log_appends_app t1 t2 :
  log_appends (t1 ++ t2) = (log_appends t1 ++ log_appends t2)%list.
Proof.
  induction t1 as [|e t1 IH]; [reflexivity|].
  destruct e; cbn; rewrite IH; reflexivity.
Qed.

Lemma new_bars_app t1 t2 : new_bars (t1 ++ t2) = (new_bars t1 ++ new_bars t2)%list.
Proof.
  induction t1 as [|e t1 IH]; [reflexivity|].
  destruct e; cbn; rewrite ?IH; reflexivity.
Qed.

Lemma append_nonempty a b : b <> "" -> ((a ++ b)%string =? "")%string = false.
Proof.
  intros Hb. apply String.eqb_neq. intros H.
  destruct a; cbn in H; [contradiction | discriminate H].
Qed.

(** ** When [update] raises *)

(** X1.  [update] returns whenever it neither divides nor writes to the
    log: always in debug mode, and otherwise, when debug logging is off or
    no log file is set, for every Major, Minor and Debug update and every
    Detail update outside an active Minor scope.  A Detail update without
    progress inside an active Minor scope raises [TypeError] before anything
    is changed or shown, in verbose mode as in non-verbose mode.  And
    [update] never raises [ZeroDivisionError]: the division is guarded by
    the truth value of its divisor. *)
Theorem update_returns_unless_it_divides_or_logs (self : Self.t) (now : datetime)
    (k : ProgressUpdateType) (p : pynum) (m : option string) (l : pynum)
    (d : option string) :
  (Self.debug_mode self = true
   \/ ((Self.log_debug self = false \/ str_truthy (Self.log_file self) = false)
       /\ (k <> DETAIL \/ Self.subtask_active self = false)) ->
   outcome_of (update now k p m l d self) = Returns tt)
  /\ (Self.debug_mode self = false -> k = DETAIL -> p = None ->
      Self.subtask_active self = true ->
      update now k p m l d self = (Raises TypeError, self, []))
  /\ outcome_of (update now k p m l d self) <> Raises ZeroDivisionError.
Proof.
  destruct self as [dm ? ? ? ? ? ? ? ? ? [[L|]|]]; destruct dm; destruct p as [p|];
    destruct k; unfold outcome_of, truediv;
    crush_update;
    (split; [intros H; try reflexivity;
             destruct H as [H|[_ [H|H]]]; cbn in H; congruence
            | split; [intros H1 H2 H3 H4; cbn in *; try discriminate; reflexivity
                     | discriminate]]).
Qed.

(** A reporter built with [log="d"] and no log file: [major] returns;
    inside the Minor scope [detail()] raises. *)
Lemma update_returns_unless_it_divides_or_logs_witness :
  outcome_of (update noon MAJOR None (Some "Importing") (Some (NInt 10)) None
                     (construct false false "d" "i"))
  = Returns tt
  /\ update later DETAIL None None (Some (NInt 100)) None importing
     = (Raises TypeError, importing, []).
Proof.
  split.
  - apply (proj1 (update_returns_unless_it_divides_or_logs
                    (construct false false "d" "i") noon MAJOR None (Some "Importing")
                    (Some (NInt 10)) None)).
    right. split; [right; reflexivity | left; discriminate].
  - apply (proj1 (proj2 (update_returns_unless_it_divides_or_logs
                           importing later DETAIL None None (Some (NInt 100)) None)));
      reflexivity.
Defined.

(** X2.  A Minor scope declared with length 0 (or [None]) switches the
    weighting off instead of dividing by zero: in non-verbose, non-debug
    mode the Minor update stores that length, and the Detail update that
    follows with a nonzero progress [p] returns and sets exactly [p]. *)
Theorem zero_length_minor_disables_weighting (self : Self.t) (now1 now2 : datetime)
    (q : pynum) (m m' : option string) (L : pynum) (d d' : option string) (p : num) :
  Self.debug_mode self = false ->
  Self.verbose_mode self = false ->
  truthy L = false ->
  num_truthy p = true ->
  exists s1 tr1,
    minor now1 q m L d self = (Returns tt, s1, tr1)
    /\ Self.subtask_length s1 = Some L
    /\ exists s2 tr2,
         detail now2 (Some p) m' d' s1 = (Returns tt, s2, tr2)
         /\ set_progress_calls tr2 = [Some p]
         /\ Self.progress s2 = Some p.
Proof.
  intros Hd Hv HL Hp.
  destruct self as [? ? ? ? ? ? ? ? ? ? ?]; cbn in Hd, Hv; subst.
  destruct L as [L|]; destruct q as [q|];
    crush_update; do 2 eexists;
    (split; [reflexivity|]); (split; [reflexivity|]);
    crush_update; do 2 eexists; repeat split; reflexivity.
Qed.

(** [minor(message="Issue 1", length=0)] then [detail(progress=3)]. *)
Lemma zero_length_minor_disables_weighting_witness :
  exists s1 tr1,
    minor noon None (Some "Issue 1") (Some (NInt 0)) None (construct false false "n" "c")
    = (Returns tt, s1, tr1)
    /\ Self.subtask_length s1 = Some (Some (NInt 0))
    /\ exists s2 tr2,
         detail later (Some (NInt 3)) None None s1 = (Returns tt, s2, tr2)
         /\ set_progress_calls tr2 = [Some (NInt 3)]
         /\ Self.progress s2 = Some (NInt 3).
Proof.
  apply (zero_length_minor_disables_weighting (construct false false "n" "c")
           noon later None (Some "Issue 1") None (Some (NInt 0)) None None (NInt 3));
    reflexivity.
Defined.

(** ** What an update keeps *)

(** X5.  The progress held changes only through a Minor update in
    non-verbose mode or a Detail update, carrying a nonzero progress,
    outside debug mode.  Every other update - in debug mode, of kind Major
    or Debug, with no or zero progress, or a Minor one in verbose mode -
    leaves it as it was and never calls the setter; a Major update that
    opens a new bar therefore keeps the value of the previous operation. *)
Theorem progress_is_kept (self : Self.t) (now : datetime) (k : ProgressUpdateType)
    (p : pynum) (m : option string) (l : pynum) (d : option string) :
  Self.debug_mode self = true \/ k = MAJOR \/ k = DEBUG \/ truthy p = false
  \/ (k = MINOR /\ Self.verbose_mode self = true) ->
  Self.progress (state_of (update now k p m l d self)) = Self.progress self
  /\ set_progress_calls (trace_of (update now k p m l d self)) = [].
Proof.
  intros H.
  destruct self as [dm ? ? ? ? ? vm ? ? ? [[L|]|]]; destruct dm; destruct p as [p|];
    destruct k; unfold state_of, trace_of, truediv;
    crush_update; try (split; reflexivity);
    destruct H as [H|[H|[H|[H|[H1 H2]]]]]; cbn in *; congruence.
Qed.

(** After [detail(progress=3)] has set 3/5, [major("Exporting", length=2)]
    opens a bar of length 2 and the reporter still holds 3/5. *)
Lemma progress_is_kept_witness :
  let self := state_of (detail later (Some (NInt 3)) None None importing) in
  Self.progress (state_of (update later MAJOR None (Some "Exporting") (Some (NInt 2))
                                  None self))
  = Some (NFloat (3 # 5)%Q)
  /\ set_progress_calls (trace_of (update later MAJOR None (Some "Exporting")
                                          (Some (NInt 2)) None self)) = [].
Proof.
  apply (progress_is_kept (state_of (detail later (Some (NInt 3)) None None importing))
           later MAJOR None (Some "Exporting") (Some (NInt 2)) None).
  right. left. reflexivity.
Defined.

(** X6.  In non-verbose mode the message changes only with a Major update
    or a Minor update that brings a non-empty message: a Detail or Debug
    update, and a Minor update whose message is absent or empty, leave the
    message as it was and never call [set_message]. *)
Theorem message_is_kept (self : Self.t) (now : datetime) (k : ProgressUpdateType)
    (p : pynum) (m : option string) (l : pynum) (d : option string) :
  Self.verbose_mode self = false ->
  k = DETAIL \/ k = DEBUG \/ (k = MINOR /\ str_truthy m = false) ->
  Self.message (state_of (update now k p m l d self)) = Self.message self
  /\ set_message_calls (trace_of (update now k p m l d self)) = [].
Proof.
  intros Hv H.
  destruct self as [dm ? ? ? ? ? vm ? ? ? [[L|]|]]; cbn in Hv; subst;
    destruct dm; destruct p as [p|];
    destruct k; unfold state_of, trace_of, truediv;
    crush_update; try (split; reflexivity);
    destruct H as [H|[H|[H1 H2]]]; cbn in *; congruence.
Qed.

(** [detail(progress=3, message="article 3")] under the message
    ["Importing"]. *)
Lemma message_is_kept_witness :
  Self.message (state_of (update later DETAIL (Some (NInt 3)) (Some "article 3")
                                 (Some (NInt 100)) None importing))
  = Some "Importing"
  /\ set_message_calls (trace_of (update later DETAIL (Some (NInt 3)) (Some "article 3")
                                         (Some (NInt 100)) None importing)) = [].
Proof.
  apply (message_is_kept importing later DETAIL (Some (NInt 3)) (Some "article 3")
           (Some (NInt 100)) None).
  - reflexivity.
  - left. reflexivity.
Defined.

(** ** Bars *)

Lemma update_new_bars self c :
  Self.debug_mode self = false ->
  new_bars (trace_of (run_update c self))
  = if is_kind (bar_kind self) c then [(u_length c, u_message c)] else [].
Proof.
  intros Hd. destruct c as [now k p m l d].
  destruct self as [dm ? ? ? ? ? vm ? ? ? [[L|]|]]; cbn in Hd; subst;
    destruct vm; destruct p as [p|]; destruct k;
    unfold trace_of, bar_kind, is_kind, truediv;
    crush_update; reflexivity.
Qed.

(** X9.  Outside debug mode, in a run that completes, the bars opened are
    exactly those of the Major updates in non-verbose mode and those of the
    Minor updates in verbose mode, in order, each with the length and the
    message of its update. *)
Theorem bars_opened (calls : list update_call) : forall self : Self.t,
  Self.debug_mode self = false ->
  outcome_of (run calls self) = Returns tt ->
  new_bars (trace_of (run calls self))
  = map (fun c => (u_length c, u_message c)) (filter (is_kind (bar_kind self)) calls).
Proof.
  induction calls as [|c rest IH]; intros self Hd Hret.
  - reflexivity.
  - rewrite run_cons in Hret |- *.
    pose proof (update_new_bars self c Hd) as Hb.
    pose proof (update_preserves_config self (at_time c) (kind c) (u_progress c)
                  (u_message c) (u_length c) (u_debug_message c)) as Hc.
    cbn zeta in Hc. destruct Hc as (Hd' & Hv' & _). fold (run_update c) in Hd', Hv'.
    destruct (run_update c self) as [[[[]|e] s1] t1];
      unfold outcome_of, state_of, trace_of in *; cbn [fst snd] in *;
      [|discriminate Hret].
    assert (Hk : bar_kind s1 = bar_kind self) by (unfold bar_kind; rewrite Hv'; reflexivity).
    rewrite new_bars_app, Hb, (IH s1) by congruence.
    rewrite Hk. cbn [filter].
    destruct (is_kind (bar_kind self) c); reflexivity.
Qed.

(** Two operations of two and one suboperations, non-verbose: two bars. *)
Lemma bars_opened_witness :
  new_bars (trace_of (run [mkCall noon MAJOR None (Some "Importing") (Some (NInt 2)) None;
                           mkCall noon MINOR (Some (NInt 1)) (Some "Issue 1")
                                  (Some (NInt 5)) None;
                           mkCall later DETAIL (Some (NInt 3)) None (Some (NInt 100)) None;
                           mkCall later MAJOR None (Some "Exporting") (Some (NInt 1)) None]
                          (construct false false "n" "c")))
  = [(Some (NInt 2), Some "Importing"); (Some (NInt 1), Some "Exporting")].
Proof.
  exact (bars_opened
           [mkCall noon MAJOR None (Some "Importing") (Some (NInt 2)) None;
            mkCall noon MINOR (Some (NInt 1)) (Some "Issue 1") (Some (NInt 5)) None;
            mkCall later DETAIL (Some (NInt 3)) None (Some (NInt 100)) None;
            mkCall later MAJOR None (Some "Exporting") (Some (NInt 1)) None]
           (construct false false "n" "c") eq_refl eq_refl).
Defined.

(** ** Debug messages *)

(** X15.  Outside debug mode a Debug update shows nothing: it returns,
    leaves the reporter as it was, and its only possible effect is a line
    appended to the log. *)
Theorem debug_update_is_silent (self : Self.t) (now : datetime) (message : option string) :
  Self.debug_mode self = false ->
  outcome_of (debug now message self) = Returns tt
  /\ state_of (debug now message self) = self
  /\ Forall (fun e => exists path line, e = EvLogAppend path line)
            (trace_of (debug now message self)).
Proof.
  intros Hd. destruct self; cbn in Hd; subst.
  unfold outcome_of, state_of, trace_of.
  crush_update; repeat split; repeat constructor; eauto.
Qed.

Lemma debug_update_is_silent_witness :
  outcome_of (debug noon (Some "GET /journals") importing) = Returns tt
  /\ state_of (debug noon (Some "GET /journals") importing) = importing
  /\ Forall (fun e => exists path line, e = EvLogAppend path line)
            (trace_of (debug noon (Some "GET /journals") importing)).
Proof.
  apply (debug_update_is_silent importing noon (Some "GET /journals")). reflexivity.
Defined.

(** X16.  In debug mode an update prints its debug message if that is
    non-empty, else its message if that is non-empty, else nothing; the
    line printed is the timestamp, [" -- "] and the text. *)
Theorem debug_mode_prefers_debug_message (self : Self.t) (now : datetime)
    (k : ProgressUpdateType) (p : pynum) (m : option string) (l : pynum)
    (d : option string) :
  Self.debug_mode self = true ->
  (forall text, d = Some text -> text <> "" ->
     trace_of (update now k p m l d self)
     = [EvPrintMessage (Some (strftime now ++ " -- " ++ text)) false false])
  /\ (forall text, str_truthy d = false -> m = Some text -> text <> "" ->
     trace_of (update now k p m l d self)
     = [EvPrintMessage (Some (strftime now ++ " -- " ++ text)) false false])
  /\ (str_truthy d = false -> str_truthy m = false ->
     trace_of (update now k p m l d self) = []).
Proof.
  intros Hd. rewrite (update_in_debug_mode _ _ _ _ _ _ _ Hd). unfold trace_of, py_or.
  cbn [snd]. repeat split.
  - intros text -> Ht. apply String.eqb_neq in Ht.
    cbn. rewrite Ht. cbn. rewrite Ht. reflexivity.
  - intros text Hf -> Ht. apply String.eqb_neq in Ht. rewrite Hf.
    cbn. rewrite Ht. reflexivity.
  - intros Hf Hm. rewrite Hf, Hm. reflexivity.
Qed.

Lemma debug_mode_prefers_debug_message_witness :
  trace_of (update noon MINOR (Some (NInt 1)) (Some "Issue 1") (Some (NInt 5))
                   (Some "fetching issue 1 of 5") (construct false true "n" "i"))
  = [EvPrintMessage (Some ("2024-03-05T12:00:00" ++ " -- " ++ "fetching issue 1 of 5"))
                    false false].
Proof.
  apply (proj1 (debug_mode_prefers_debug_message (construct false true "n" "i") noon
                  MINOR (Some (NInt 1)) (Some "Issue 1") (Some (NInt 5))
                  (Some "fetching issue 1 of 5") eq_refl)
               "fetching issue 1 of 5" eq_refl).
  discriminate.
Defined.

(** ** The log file *)

(** X3.  Outside debug mode, with debug logging on and a log file set,
    every update that does not raise appends exactly one line to that file
    when it has a non-empty debug message or message - the timestamp,
    [" -- "], the debug message if non-empty and else the message, and a
    newline - and appends nothing when it has neither.  This holds for every
    kind of update, Debug included. *)
Theorem debug_log_line (self : Self.t) (now : datetime) (k : ProgressUpdateType)
    (p : pynum) (m : option string) (l : pynum) (d : option string) (path : string) :
  Self.debug_mode self = false ->
  Self.log_debug self = true ->
  Self.log_file self = Some path -> path <> "" ->
  k <> DETAIL \/ p <> None \/ Self.subtask_active self = false ->
  outcome_of (update now k p m l d self) = Returns tt
  /\ log_appends (trace_of (update now k p m l d self))
     = if str_truthy (py_or d m)
       then [(path, (strftime now ++ " -- " ++ fmt (py_or d m)) ++ nl)]
       else [].
Proof.
  intros Hd Hl Hf Hp Hk.
  assert (Hpath : (path =? "")%string = false) by (apply String.eqb_neq; exact Hp).
  destruct self as [? ? ? ? ? ? ? ? ? ? [[L|]|]]; cbn in Hd, Hl, Hf; subst;
    destruct p as [p|]; destruct k;
    unfold Self.subtask_active in Hk; cbn in Hk;
    unfold outcome_of, trace_of, truediv;
    crush_update; try rewrite Hpath in *; cbn in *;
    try (split; reflexivity);
    try discriminate;
    try (destruct Hk as [Hk|[Hk|Hk]]; congruence).
Qed.

(** [debug("GET /journals")] at noon, logged to [transfer.log]. *)
Lemma debug_log_line_witness :
  outcome_of (update noon DEBUG None None (Some (NInt 100)) (Some "GET /journals")
                     (with_log_file "transfer.log" (construct false false "d" "i")))
  = Returns tt
  /\ log_appends (trace_of (update noon DEBUG None None (Some (NInt 100))
                                   (Some "GET /journals")
                                   (with_log_file "transfer.log"
                                                  (construct false false "d" "i"))))
     = [("transfer.log", "2024-03-05T12:00:00 -- GET /journals" ++ nl)].
Proof.
  apply (debug_log_line (with_log_file "transfer.log" (construct false false "d" "i"))
           noon DEBUG None None (Some (NInt 100)) (Some "GET /journals") "transfer.log");
    try reflexivity.
  - discriminate.
  - left. discriminate.
Defined.

Lemma update_without_log_file self now k p m l d :
  Self.log_file self = None ->
  Self.log_file (state_of (update now k p m l d self)) = None
  /\ log_appends (trace_of (update now k p m l d self)) = [].
Proof.
  intros Hf.
  destruct self as [dm ? ? ? ? ? ? ? ? ? [[L|]|]]; cbn in Hf; subst;
    destruct dm; destruct p as [p|]; destruct k;
    unfold state_of, trace_of, truediv;
    crush_update; try discriminate; split; reflexivity.
Qed.

Lemma run_without_log_file calls : forall self,
  Self.log_file self = None ->
  Self.log_file (state_of (run calls self)) = None
  /\ log_appends (trace_of (run calls self)) = [].
Proof.
  induction calls as [|c rest IH]; intros self Hf.
  - split; [exact Hf | reflexivity].
  - rewrite run_cons.
    destruct (update_without_log_file self (at_time c) (kind c) (u_progress c)
                (u_message c) (u_length c) (u_debug_message c) Hf) as [Hf1 Hl1].
    fold (run_update c) in Hf1, Hl1.
    destruct (run_update c self) as [[[[]|e] s1] t1];
      unfold state_of, trace_of in *; cbn [fst snd] in *.
    + destruct (IH s1 Hf1) as [Hf2 Hl2].
      split; [exact Hf2 | rewrite log_appends_app, Hl1, Hl2; reflexivity].
    + split; assumption.
Qed.

(** X4.  The class never assigns [log_file]: a reporter as [__init__]
    builds it writes nothing to any log, whatever its log mode, through any
    sequence of updates and any [report_error] after it.  Logging works only
    once the concrete class has set [log_file]. *)
Theorem no_log_file_no_log (init_message : option string) (start : pynum)
    (verbose debug : bool) (log on_error : string) (self : Self.t)
    (calls : list update_call) :
  __init__ init_message start verbose debug log on_error = Returns self ->
  log_appends (trace_of (run calls self)) = []
  /\ forall dedent now reply error ctx,
       log_appends (trace_of (report_error dedent now reply error ctx
                                           (state_of (run calls self)))) = [].
Proof.
  intros Hinit. inversion Hinit as [Hself]. clear Hinit.
  match goal with
  | |- context [run calls ?s] =>
      destruct (run_without_log_file calls s eq_refl) as [Hf Hl]
  end.
  split; [exact Hl|].
  intros dedent now reply error ctx.
  destruct (state_of (run calls _)) as [? ? le lf ? oe ? ? ? ? ?].
  cbn in Hf. subst lf.
  unfold trace_of. unfold_report. cbn.
  destruct (oe =? "c")%string, (oe =? "continue")%string,
    (oe =? "a")%string, (oe =? "abort")%string; cbn;
    destruct le; cbn; try reflexivity;
    destruct error as [r|[|a args]]; reflexivity.
Qed.

(** A reporter built with [log="debug"]. *)
Lemma no_log_file_no_log_witness :
  log_appends (trace_of (run [mkCall noon MAJOR None (Some "Importing") (Some (NInt 10))
                                     (Some "start import")]
                             (construct false false "debug" "c"))) = []
  /\ forall dedent now reply error ctx,
       log_appends
         (trace_of (report_error dedent now reply error ctx
                      (state_of (run [mkCall noon MAJOR None (Some "Importing")
                                             (Some (NInt 10)) (Some "start import")]
                                     (construct false false "debug" "c"))))) = [].
Proof.
  apply (no_log_file_no_log None (Some (NInt 0)) false false "debug" "c").
  reflexivity.
Defined.

(** ** More on [report_error] *)

(** X7.  When [report_error] does not reach a log write (error logging
    is off, or no log file is set) it raises in exactly one situation -
    error logging on and an exception without [args], the exception being
    [IndexError].  In every case, returning or raising, it leaves the
    reporter as it was and performs no bar operation. *)
Theorem report_error_raises_iff (dedent : string -> string) (self : Self.t)
    (now : datetime) (reply : string) (error : exception) (ctx : context) (e : exn) :
  (Self.log_error self = false \/ str_truthy (Self.log_file self) = false ->
   (outcome_of (report_error dedent now reply error ctx self) = Raises e <->
    e = IndexError /\ Self.log_error self = true /\ error = Exception []))
  /\ state_of (report_error dedent now reply error ctx self) = self
  /\ Forall (fun ev => is_bar_operation ev = false)
            (trace_of (report_error dedent now reply error ctx self)).
Proof.
  destruct self as [? ? le lf ? oe ? ? ? ? ?].
  unfold outcome_of, state_of, trace_of. unfold_report. cbn.
  destruct (oe =? "c")%string, (oe =? "continue")%string,
    (oe =? "a")%string, (oe =? "abort")%string; cbn;
    destruct le; cbn;
    destruct error as [r|[|a args]]; cbn;
    repeat match goal with
           | |- context [if ?b then _ else _] => destruct b
           end; cbn;
    (split; [intros _; split;
             [intros H; try discriminate H; inversion H; auto
             | intros (H1 & H2 & H3); subst; try discriminate; auto]
            | split; [reflexivity | repeat constructor]]).
Qed.

(** A reporter built with [log="e"], which has no log file: an exception
    with a message is answered. *)
Lemma report_error_raises_iff_witness :
  outcome_of (report_error (fun s => s) noon "retry" (Exception ["boom"])
                           [("record", "1")] (construct false false "e" "c"))
  <> Raises IndexError.
Proof.
  intros H.
  apply (proj1 (proj1 (report_error_raises_iff (fun s => s)
                         (construct false false "e" "c") noon "retry"
                         (Exception ["boom"]) [("record", "1")] IndexError)
                      (or_intror eq_refl))) in H.
  destruct H as (_ & _ & H). discriminate H.
Defined.

(** X8.  With error logging on and a log file set, [report_error] appends
    exactly one line when the error can be described: the timestamp,
    [" -- "], the description of the error, a newline and the word [None].
    The context is pretty-printed on standard output and never reaches the
    log: the logged line is the same for every context. *)
Theorem error_log_line (dedent : string -> string) (self : Self.t) (now : datetime)
    (reply : string) (error : exception) (ctx : context) (path info : string) :
  Self.log_error self = true ->
  Self.log_file self = Some path -> path <> "" ->
  __error_info dedent error = Returns info ->
  log_appends (trace_of (report_error dedent now reply error ctx self))
  = [(path, (strftime now ++ " -- " ++ info ++ nl ++ "None") ++ nl)]
  /\ In (EvPPrint ctx) (trace_of (report_error dedent now reply error ctx self)).
Proof.
  intros Hl Hf Hp Hi.
  assert (Hpath : (path =? "")%string = false) by (apply String.eqb_neq; exact Hp).
  assert (Hmsg : ((info ++ nl ++ "None")%string =? "")%string = false)
    by (apply append_nonempty; discriminate).
  destruct self as [? ? le lf ? oe ? ? ? ? ?]. cbn in Hl, Hf. subst le lf.
  unfold trace_of. unfold_report. fold (__error_info dedent error). rewrite Hi. cbn.
  destruct (oe =? "c")%string, (oe =? "continue")%string,
    (oe =? "a")%string, (oe =? "abort")%string; cbn;
    rewrite Hpath, Hmsg; cbn; split; auto.
Qed.

(** [report_error(Exception("boom"), {"record": 1})] logged to
    [transfer.log]. *)
Lemma error_log_line_witness :
  log_appends
    (trace_of (report_error (fun s => s) noon "retry" (Exception ["boom"])
                            [("record", "1")]
                            (with_log_file "transfer.log" (construct false false "e" "c"))))
  = [("transfer.log", "2024-03-05T12:00:00 -- boom" ++ nl ++ "None" ++ nl)]
  /\ In (EvPPrint [("record", "1")])
        (trace_of (report_error (fun s => s) noon "retry" (Exception ["boom"])
                                [("record", "1")]
                                (with_log_file "transfer.log"
                                               (construct false false "e" "c")))).
Proof.
  apply (error_log_line (fun s => s)
           (with_log_file "transfer.log" (construct false false "e" "c"))
           noon "retry" (Exception ["boom"]) [("record", "1")] "transfer.log" "boom");
    try reflexivity.
  discriminate.
Defined.

(** ** Verbose runs *)

(** X14.  A verbose reporter as [__init__] builds it - no [subtask_length],
    no log file - completes every sequence of updates: in verbose mode
    [update] never assigns [subtask_length], so it never divides, and
    without a log file it never writes. *)
Theorem verbose_run_returns (calls : list update_call) : forall self : Self.t,
  Self.verbose_mode self = true ->
  Self.subtask_length self = None ->
  Self.log_file self = None ->
  outcome_of (run calls self) = Returns tt.
Proof.
  induction calls as [|c rest IH]; intros self Hv Hs Hf.
  - reflexivity.
  - rewrite run_cons.
    pose proof (update_preserves_config self (at_time c) (kind c) (u_progress c)
                  (u_message c) (u_length c) (u_debug_message c)) as Hc.
    cbn zeta in Hc. destruct Hc as (_ & Hv' & _ & _ & _ & Hs').
    destruct (update_without_log_file self (at_time c) (kind c) (u_progress c)
                (u_message c) (u_length c) (u_debug_message c) Hf) as [Hf' _].
    fold (run_update c) in Hv', Hs', Hf'.
    destruct (run_update c self) as [[[[]|e] s1] t1] eqn:Hrun;
      unfold outcome_of, state_of in *; cbn [fst snd] in *.
    + apply IH; [congruence | rewrite Hs' by assumption; assumption | assumption].
    + exfalso.
      destruct self as [dm ? ? ? ? ? ? ? ? ? sl]; cbn in Hv, Hs; subst.
      destruct c as [now k p m l d]. destruct dm; destruct p as [p|]; destruct k;
        unfold run_update in Hrun; cbn [at_time kind u_progress u_message u_length
                                         u_debug_message] in Hrun;
        revert Hrun; crush_update; discriminate.
Qed.

(** A verbose run with a Detail update that carries no progress. *)
Lemma verbose_run_returns_witness :
  outcome_of (run [mkCall noon MAJOR None (Some "Importing") (Some (NInt 10)) None;
                   mkCall noon MINOR None (Some "Issue 1") (Some (NInt 5)) None;
                   mkCall later DETAIL None (Some "article 1") (Some (NInt 100)) None]
                  (construct true false "n" "i"))
  = Returns tt.
Proof.
  apply verbose_run_returns; reflexivity.
Defined.

(** * Properties of the HTTP connection *)

Import HTTPConnection.

Lemma rstrip_app_slash t : rstrip (t ++ "/") = rstrip t.
Proof.
  induction t as [|c r IH]; [reflexivity|].
  change ((String c r ++ "/")%string) with (String c (r ++ "/")%string).
  cbn [rstrip]. rewrite IH. reflexivity.
Qed.

Lemma lstrip_app_slash s :
  lstrip (s ++ "/") = (lstrip s ++ "/")%string
  \/ (lstrip (s ++ "/") = "" /\ lstrip s = "").
Proof.
  induction s as [|c r IH].
  - right. split; reflexivity.
  - change ((String c r ++ "/")%string) with (String c (r ++ "/")%string).
    cbn [lstrip].
    destruct (Ascii.eqb c "/"); [exact IH | left; reflexivity].
Qed.

Lemma strip_app_slash s : strip (s ++ "/") = strip s.
Proof.
  unfold strip. destruct (lstrip_app_slash s) as [H | [H1 H2]].
  - rewrite H. apply rstrip_app_slash.
  - rewrite H1, H2. reflexivity.
Qed.

Lemma strip_cons_slash s : strip ("/" ++ s) = strip s.
Proof. reflexivity. Qed.

Lemma lookup_filter_out k (d : dict) :
  lookup k (filter (fun kv => negb (String.eqb (fst kv) k)) d) = None.
Proof.
  induction d as [|[k' v] rest IH]; [reflexivity|].
  cbn [filter fst]. destruct (String.eqb_spec k' k) as [->|Hne]; cbn [negb].
  - exact IH.
  - cbn [lookup]. destruct (String.eqb_spec k k'); [congruence | exact IH].
Qed.

Section JsonFacts.

Variable json_dumps : dict -> option string.

(** X10.  The URL of a request does not depend on slashes around its parts:
    a slash added at either end of the host or of a relative path changes
    neither what [get] sends nor what [post] sends and returns. *)
Theorem requests_ignore_surrounding_slashes (self : t) (path : string) :
  (forall params response,
      get (with_host (host self ++ "/") self) path false params response
      = get self path false params response
      /\ get (with_host ("/" ++ host self) self) path false params response
         = get self path false params response
      /\ get self (path ++ "/") false params response
         = get self path false params response
      /\ get self ("/" ++ path) false params response
         = get self path false params response)
  /\ (forall data respond,
      post json_dumps (with_host (host self ++ "/") self) path data respond
      = post json_dumps self path data respond
      /\ post json_dumps (with_host ("/" ++ host self) self) path data respond
         = post json_dumps self path data respond
      /\ post json_dumps self (path ++ "/") data respond
         = post json_dumps self path data respond
      /\ post json_dumps self ("/" ++ path) data respond
         = post json_dumps self path data respond).
Proof.
  split; intros.
  - unfold get, with_host; cbn [host username password].
    rewrite !strip_app_slash, !strip_cons_slash. repeat split; reflexivity.
  - unfold post, with_host; cbn [host username password].
    rewrite !strip_app_slash, !strip_cons_slash.
    repeat split; reflexivity.
Qed.

(** X11.  When [post] of a dict returns, it has sent exactly one request, to
    the host and path joined by one slash and closed by a slash, and returns
    its response.  No option of the request is [None]; the body goes under
    [data] when the payload has a truthy ["files"] entry and under [json]
    otherwise, never both; [files] is passed whenever the payload has a
    ["files"] entry that is not [None], even a falsy one; and the [json]
    body never contains the ["files"] entry. *)
Theorem post_options (self : t) (path : string) (items : dict)
    (respond : nat -> Response) (r : post_response) (requests : list request) :
  post json_dumps self path (DictData items) respond = (Ok r, requests) ->
  r = One (respond 0%nat)
  /\ exists opts,
       requests = [Post (strip (host self) ++ "/" ++ strip path ++ "/") opts]
       /\ Forall (fun kv => is_none (snd kv) = false) opts
       /\ has_key "data" opts = val_truthy (files_of items)
       /\ has_key "json" opts = negb (val_truthy (files_of items))
       /\ has_key "files" opts = negb (is_none (files_of items))
       /\ (forall body, lookup "json" opts = Some (VDict body) ->
                        lookup "files" body = None).
Proof.
  unfold post, __build_post_params, py_contains, py_get, py_items, files_of, has_key.
  destruct (lookup "files" items) as [files|] eqn:Hfiles; cbn beta iota.
  - destruct (val_truthy files) eqn:Ht.
    + destruct (json_dumps _) as [j|]; [|discriminate].
      intros H. inversion H; subst. split; [reflexivity|].
      eexists. split; [reflexivity|].
      unfold __credentials, drop_none.
      destruct (is_none (username self)) eqn:Hu;
        destruct files; try discriminate Ht; cbn; rewrite ?Hu; cbn;
        repeat split; try (repeat constructor; cbn; assumption);
        intros body Hbody; discriminate Hbody.
    + intros H. inversion H; subst. split; [reflexivity|].
      eexists. split; [reflexivity|].
      unfold __credentials, drop_none.
      destruct (is_none (username self)) eqn:Hu;
        destruct files; cbn; rewrite ?Hu; cbn;
        repeat split; try (repeat constructor; cbn; assumption);
        intros body Hbody; inversion Hbody; subst; apply lookup_filter_out.
  - cbn [val_truthy is_none].
    intros H. inversion H; subst. split; [reflexivity|].
    eexists. split; [reflexivity|].
    unfold __credentials, drop_none.
    destruct (is_none (username self)) eqn:Hu; cbn; rewrite ?Hu; cbn;
      repeat split; try (repeat constructor; cbn; assumption);
      intros body Hbody; inversion Hbody; subst; apply lookup_filter_out.
Qed.

(** X12.  [post] of a list never sends anything.  Building the request
    options fails on the list itself: where ["files"] is among its elements
    the method calls [get] on it, and where it is not the method calls
    [items] on it, and a list has neither, so [AttributeError] is raised
    before the loop over the records is reached. *)
Theorem post_list_raises (self : t) (path : string) (records : list pyval)
    (respond : nat -> Response) :
  __build_post_params json_dumps self (ListData records) = Error AttributeError
  /\ post json_dumps self path (ListData records) respond
     = (Error AttributeError, []).
Proof.
  assert (H : __build_post_params json_dumps self (ListData records)
              = Error AttributeError).
  { unfold __build_post_params.
    destruct (py_contains "files" (ListData records)); reflexivity. }
  split; [exact H|]. unfold post. rewrite H. reflexivity.
Qed.

(** X13.  Credentials follow [username] alone: [get] always sends exactly
    one request, with its keyword arguments as [params] (an empty dict
    included), and both [get] and [post] pass [auth = (username, password)]
    exactly when [username] is not [None], whatever [password] is. *)
Theorem credentials_follow_username (self : t) :
  (forall path is_absolute params response,
      exists url opts,
        get self path is_absolute params response = (response, [Get url opts])
        /\ lookup "params" opts = Some (VDict params)
        /\ lookup "auth" opts
           = if is_none (username self) then None
             else Some (VTuple [username self; password self]))
  /\ (forall path items respond r requests,
      post json_dumps self path (DictData items) respond = (Ok r, requests) ->
      exists url opts,
        requests = [Post url opts]
        /\ lookup "auth" opts
           = if is_none (username self) then None
             else Some (VTuple [username self; password self])).
Proof.
  split.
  - intros. do 2 eexists. split; [reflexivity|].
    unfold __build_get_params, __credentials, drop_none.
    destruct (is_none (username self)) eqn:Hu; cbn; rewrite ?Hu; cbn; split; reflexivity.
  - intros path items respond r requests.
    unfold post, __build_post_params, py_contains, py_get, py_items,
      __credentials, drop_none.
    destruct (has_key "files" items);
      [destruct (lookup "files" items) as [files|]|]; cbn beta iota;
      try destruct (val_truthy files);
      try destruct (json_dumps _); try discriminate;
      cbn [val_truthy];
      intros H; inversion H; subst; do 2 eexists; (split; [reflexivity|]);
      destruct (is_none (username self)) eqn:Hu; cbn; rewrite ?Hu; cbn;
      try reflexivity;
      repeat match goal with
             | |- context [is_none ?v] => destruct v; cbn
             end; reflexivity.
Qed.

End JsonFacts.

(** Uploading an issue with a file, with credentials. *)
Lemma post_options_witness :
  exists opts,
    snd (post (fun _ => Some "{}") server "/issues/" (DictData upload)
              (fun _ => mkResponse 201 "Created" ""))
    = [Post "https://journals.example.org/issues/" opts]
    /\ has_key "data" opts = true
    /\ has_key "json" opts = false
    /\ has_key "files" opts = true.
Proof.
  destruct (post_options (fun _ => Some "{}") server "/issues/" upload
              (fun _ => mkResponse 201 "Created" "") _ _ eq_refl)
    as (_ & opts & Hreq & _ & Hdata & Hjson & Hfiles & _).
  exists opts. repeat split; assumption.
Defined.

Lemma credentials_follow_username_witness :
  exists url opts,
    snd (post (fun _ => Some "{}") server "/issues/" (DictData upload)
              (fun _ => mkResponse 201 "Created" ""))
    = [Post url opts]
    /\ lookup "auth" opts = Some (VTuple [VStr "editor"; VStr "secret"]).
Proof.
  destruct (proj2 (credentials_follow_username (fun _ => Some "{}") server)
                  "/issues/" upload (fun _ => mkResponse 201 "Created" "") _ _ eq_refl)
    as (url & opts & Hreq & Hauth).
  exists url, opts. split; assumption.
Defined.
